(** * DRIMS: optimistic locking and the relief-package workflow

    A shallow embedding of
    - [app/core/optimistic_locking.py] (the two session hooks registered by
      [setup_optimistic_locking]), and
    - [app/features/packages_aidmgmt.py] ([create_package], [dispatch_package]),
    over the rows declared in [app/db/models.py].

    The database is passed explicitly: a handler takes the committed rows and
    returns its response together with the rows committed afterwards. *)

From Stdlib Require Import ZArith QArith List Ascii String Bool Lia.
From Stdlib Require Sorted Permutation.
Import ListNotations.
Open Scope Z_scope.

(** ** The session hooks of [optimistic_locking.py] *)
Module Locking.

(** A Python attribute that an object may lack ([hasattr]). *)
Inductive attr (A : Type) : Type :=
| Absent
| Present (a : A).
Arguments Absent {A}.
Arguments Present {A} a.

(** Values of primary-key columns. *)
Inductive pyval : Type :=
| PInt (z : Z)
| PStr (s : string).

(** What the hooks read and write on a mapped object.
    [version_nbr] is [Absent] for classes without the column (User, Role, ...),
    [Present None] when the attribute is [None]. *)
Record entity : Type := mkEntity {
  cls : string;                       (* obj.__class__.__name__ *)
  pk : list (string * pyval);         (* primary-key columns with their values *)
  version_nbr : attr (option Z);
  version_nbr_changed : bool;         (* state.attrs.version_nbr.history.has_changes() *)
  is_modified : bool;                 (* session.is_modified(obj) *)
  in_dirty : bool;                    (* obj in session.dirty *)
  persistent : bool;                  (* inspect(obj).persistent *)
  _original_version_nbr : attr Z      (* the marker the before-flush hook leaves *)
}.

(** [session.identity_map.values()], and whether [session.rollback()] ran. *)
Record session : Type := mkSession {
  identity_map : list entity;
  rolled_back : bool
}.

(** Records handed to [logger]; the text of the message is not modelled,
    its arguments are. *)
Inductive log_record : Type :=
| LogWarning (class_name : string)                      (* "... has None version_nbr, skipping ..." *)
| LogError (class_name : string) (expected : Z) (got : option Z).

Record OptimisticLockError : Type := mkLockError {
  err_class : string;
  err_record_id : list (string * pyval)
}.

Definition set_version (obj : entity) (v : Z) : entity :=
  {| cls := cls obj; pk := pk obj;
     version_nbr := Present (Some v);
     version_nbr_changed := true;
     is_modified := is_modified obj; in_dirty := in_dirty obj;
     persistent := persistent obj;
     _original_version_nbr := _original_version_nbr obj |}.

Definition set_original (obj : entity) (m : attr Z) : entity :=
  {| cls := cls obj; pk := pk obj;
     version_nbr := version_nbr obj;
     version_nbr_changed := version_nbr_changed obj;
     is_modified := is_modified obj; in_dirty := in_dirty obj;
     persistent := persistent obj;
     _original_version_nbr := m |}.

(** The body of the [for obj in session.dirty] loop of
    [enforce_optimistic_lock] (lines 28-49). *)
Definition enforce_one (obj : entity) : entity * list log_record :=
  match version_nbr obj with
  | Absent => (obj, [])
  | Present original_version =>
    if negb (is_modified obj) then (obj, [])
    else if version_nbr_changed obj then (obj, [])
    else
      match original_version with
      | None => (obj, [LogWarning (cls obj)])
      | Some v => (set_original (set_version obj (v + 1)) (Present v), [])
      end
  end.

Fixpoint enforce_loop (objs : list entity) : list entity * list log_record :=
  match objs with
  | [] => ([], [])
  | obj :: rest =>
    let '(obj', log1) := if in_dirty obj then enforce_one obj else (obj, []) in
    let '(rest', log2) := enforce_loop rest in
    (obj' :: rest', log1 ++ log2)
  end.

(** The before-flush hook. [session.dirty] is a subset of the identity map;
    the loop is run in identity-map order (a set has no order of its own,
    and the iterations do not depend on one another). *)
Definition enforce_optimistic_lock (s : session) : session * list log_record :=
  let '(objs, log) := enforce_loop (identity_map s) in
  ({| identity_map := objs; rolled_back := rolled_back s |}, log).

(** The test of lines 63-64 on an object whose marker held
    [original_version]: [None] when the object passes. *)
Definition version_mismatch (obj : entity) (original_version : Z) : option (option Z) :=
  if persistent obj then
    match version_nbr obj with
    | Absent => None
    | Present got =>
      match got with
      | Some v => if v =? original_version + 1 then None else Some got
      | None => Some got
      end
    end
  else None.

(** The [for obj in session.identity_map.values()] loop of
    [verify_optimistic_lock]; it stops at the first [raise]. *)
Fixpoint verify_loop (objs : list entity)
  : list entity * list log_record * option OptimisticLockError :=
  match objs with
  | [] => ([], [], None)
  | obj :: rest =>
    match _original_version_nbr obj with
    | Absent =>
      let '(rest', log, e) := verify_loop rest in (obj :: rest', log, e)
    | Present original_version =>
      let obj' := set_original obj Absent in
      match version_mismatch obj' original_version with
      | Some got =>
        (obj' :: rest,
         [LogError (cls obj') (original_version + 1) got],
         Some (mkLockError (cls obj') (pk obj')))
      | None =>
        let '(rest', log, e) := verify_loop rest in (obj' :: rest', log, e)
      end
    end
  end.

(** The after-flush hook: [session.rollback()] precedes the [raise]. *)
Definition verify_optimistic_lock (s : session)
  : session * list log_record * option OptimisticLockError :=
  let '(objs, log, e) := verify_loop (identity_map s) in
  ({| identity_map := objs;
      rolled_back := match e with Some _ => true | None => rolled_back s end |},
   log, e).

(** A guarded entity whose version after the flush is not the expected one. *)
Definition stale (obj : entity) : bool :=
  match _original_version_nbr obj with
  | Absent => false
  | Present original_version =>
    match version_mismatch (set_original obj Absent) original_version with
    | Some _ => true
    | None => false
    end
  end.

(** The UPDATE a flush issues for an object. [models.py] declares no
    [version_id_col] and the hooks add no predicate, so the statement is
    keyed by the primary key alone: it sets the columns whose attributes
    have changed, whatever version the row holds. [stored] is the version
    of the row in the database when the statement runs; the result is the
    version the row holds afterwards. *)
Definition update_row (stored : option Z) (obj : entity) : option Z :=
  if in_dirty obj && is_modified obj && version_nbr_changed obj
  then match version_nbr obj with
       | Present v => v
       | Absent => stored
       end
  else stored.

(** One guarded write of a single object against a row holding [stored]:
    the before-flush hook, the UPDATE, the after-flush hook. The answer is
    the error the after-flush hook raises, if any, and the version the row
    holds in the end (the one it held, when the hook rolled back). *)
Definition guarded_update (stored : option Z) (obj : entity)
  : option OptimisticLockError * option Z :=
  let '(s1, _) := enforce_optimistic_lock (mkSession [obj] false) in
  let written :=
    match identity_map s1 with
    | o :: _ => update_row stored o
    | [] => stored
    end in
  let '(_, _, raised) := verify_optimistic_lock s1 in
  match raised with
  | Some e => (Some e, stored)
  | None => (None, written)
  end.

End Locking.

(** ** Python values met by the handlers *)
Module Py.

(** A [Numeric(12, 2)] column loads as a [decimal.Decimal] with two
    fractional digits: the number of hundredths. *)
Definition Decimal : Type := Z.

Definition decimal_value (d : Decimal) : Q := d # 100.

(** A Python [float]. The handlers only compare floats, so a finite float
    is represented by the rational it denotes. *)
Inductive pyfloat : Type :=
| Finite (q : Q)
| PosInf
| NegInf
| NaN.

Inductive exn : Type :=
| TypeError
| ValueError
| InvalidOperation                          (* decimal.InvalidOperation *)
| NotFound                                  (* werkzeug's 404, raised by get_or_404 *)
| IntegrityError
| ResourceClosedError (context : Locking.OptimisticLockError).
                                            (* sqlalchemy's, raised by a flush whose
                                               after-flush hook rolled the session back;
                                               the hook's own error is its __context__ *)

Definition Qlt_bool (x y : Q) : bool := negb (Qle_bool y x).

(** [f <= 0] *)
Definition float_le_zero (f : pyfloat) : bool :=
  match f with
  | Finite q => Qle_bool q 0
  | NegInf => true
  | PosInf => false
  | NaN => false
  end.

(** [d < f] for a Decimal [d] and a float [f]: the comparison is exact; an
    ordering comparison with a NaN signals [InvalidOperation]. *)
Definition decimal_lt_float (d : Decimal) (f : pyfloat) : exn + bool :=
  match f with
  | Finite q => inr (Qlt_bool (decimal_value d) q)
  | PosInf => inr true
  | NegInf => inr false
  | NaN => inl InvalidOperation
  end.

(** [f > d]: [float.__gt__] does not know Decimal, Python falls back on the
    reflected [Decimal.__lt__]. *)
Definition float_gt_decimal (f : pyfloat) (d : Decimal) : exn + bool :=
  decimal_lt_float d f.

(** [d += f] for a Decimal [d] and a float [f], as in line 131 of
    [packages_aidmgmt.py], where [issue_qty] comes from a [Numeric(12, 2)]
    column and [qty] from [float(qty_str)] (line 82). Decimal has no
    [__iadd__]; [Decimal.__add__] returns [NotImplemented] for a float
    operand and so does [float.__radd__] for a Decimal one: the statement
    raises [TypeError] (only comparisons mix the two types). *)
Definition decimal_iadd_float (d : Decimal) (f : pyfloat) : exn + Decimal :=
  inl TypeError.

(** Truth value of a [str]. *)
Definition truthy (s : string) : bool := negb (String.eqb s EmptyString).

End Py.

(** ** The rows of [app/db/models.py] that the two handlers touch *)
Module Models.
Import Py.

(** The audit columns ([create_by_id], [create_dtime], [update_by_id],
    [update_dtime]); times are clock readings. *)
Record audit : Type := mkAudit {
  create_by_id : string;
  create_dtime : Z;
  update_by_id : string;
  update_dtime : option Z
}.

Module ReliefRqst.
Record t : Type := mk {
  reliefrqst_id : Z;
  status_code : Z
}.
End ReliefRqst.

Module ReliefRqstItem.
Record t : Type := mk {
  reliefrqst_id : Z;
  item_id : Z;
  request_qty : Decimal;
  issue_qty : Decimal;
  version_nbr : Z
}.
End ReliefRqstItem.

Module Inventory.
Record t : Type := mk {
  inventory_id : Z;
  warehouse_id : Z;
  item_id : Z;
  usable_qty : Decimal;
  reserved_qty : Decimal;
  defective_qty : Decimal;
  expired_qty : Decimal;
  uom_code : string;
  status_code : string;
  version_nbr : Z
}.
End Inventory.

Module ReliefPkg.
Record t : Type := mk {
  reliefpkg_id : Z;
  to_inventory_id : Z;
  reliefrqst_id : Z;
  start_date : Z;
  dispatch_dtime : option Z;
  transport_mode : option string;
  comments_text : option string;
  status_code : string;
  audit_cols : audit;
  verify_by_id : string;
  verify_dtime : option Z;
  version_nbr : Z
}.
End ReliefPkg.

(** [item_qty] is a float on the object the handler builds and a Decimal in
    the table: the record is indexed by the type of the quantity. *)
Module ReliefPkgItem.
Record t (qty : Type) : Type := mk {
  reliefpkg_id : Z;
  fr_inventory_id : Z;
  item_id : Z;
  item_qty : qty;
  uom_code : string;
  audit_cols : audit;
  version_nbr : Z
}.
Arguments mk {qty}.
Arguments reliefpkg_id {qty}.
Arguments fr_inventory_id {qty}.
Arguments item_id {qty}.
Arguments item_qty {qty}.
Arguments uom_code {qty}.
Arguments audit_cols {qty}.
Arguments version_nbr {qty}.
End ReliefPkgItem.

(** The committed tables. A table is the list of its rows in the order in
    which an unordered [SELECT] returns them ([.first()] takes the head of
    the matching rows). *)
Record DB : Type := mkDB {
  reliefrqst : list ReliefRqst.t;
  reliefrqst_item : list ReliefRqstItem.t;
  inventory : list Inventory.t;
  reliefpkg : list ReliefPkg.t;
  reliefpkg_item : list (ReliefPkgItem.t Decimal)
}.

End Models.

(** ** The handlers of [packages_aidmgmt.py] *)
Module Workflow.
Import Py Models.

(** The flash messages of the two handlers, under the names the
    specification gives to the errors they report. *)
Inductive error : Type :=
| InvalidState              (* 'Only approved or partially fulfilled requests can be packaged',
                               'Only pending packages can be dispatched' *)
| NoActiveInventory         (* 'Selected warehouse has no active inventory' *)
| InvalidQuantity           (* 'Quantity must be positive: received ...' *)
| ItemNotInRequest          (* 'Item ... not in original request' *)
| QuantityExceedsRemaining  (* 'Quantity ... exceeds remaining amount ...' *)
| ItemNotStocked            (* '... not available in selected warehouse' *)
| InsufficientStock         (* 'Insufficient stock: ...' *)
| EmptyPackage              (* 'Package must contain at least one item with positive quantity' *)
| ErrorCreating (e : exn).  (* 'Error creating package: ...', the [except Exception] branch *)

Inductive response : Type :=
| RenderCreateForm                                  (* GET /packages/create *)
| RedirectViewPackage (package_id : Z)              (* flash 'success' *)
| RedirectCreatePackage (why : error)               (* flash 'danger' *)
| RedirectViewPackageDanger (package_id : Z) (why : error)
| Abort404                                          (* get_or_404 outside a try *)
| Unhandled (e : exn).                              (* an exception no handler catches *)

(** Control flow inside the [try] block: fall through, [return] after a
    flash, or [raise]. *)
Inductive flow (A : Type) : Type :=
| Next (a : A)
| Return (why : error)
| Raise (e : exn).
Arguments Next {A} a.
Arguments Return {A} why.
Arguments Raise {A} e.

Definition bind {A B : Type} (m : flow A) (k : A -> flow B) : flow B :=
  match m with
  | Next a => k a
  | Return why => Return why
  | Raise e => Raise e
  end.

Definition try {A : Type} (m : exn + A) : flow A :=
  match m with
  | inl e => Raise e
  | inr a => Next a
  end.

Notation "x <- m ;; k" := (bind m (fun x => k))
  (at level 61, m at next level, right associativity).

(** The unit of work of one request: the rows as the open transaction sees
    them (flushed rows and attribute changes made on loaded objects), the
    objects added but not yet inserted, and the loaded request items with
    unflushed changes. *)
Record Session : Type := mkSess {
  view : DB;
  new_pkg_items : list (ReliefPkgItem.t pyfloat);
  dirty_rqst_items : list (Z * Z)
}.

Definition set_reliefpkg (db : DB) (l : list ReliefPkg.t) : DB :=
  mkDB (reliefrqst db) (reliefrqst_item db) (inventory db) l (reliefpkg_item db).

Definition set_reliefrqst_item (db : DB) (l : list ReliefRqstItem.t) : DB :=
  mkDB (reliefrqst db) l (inventory db) (reliefpkg db) (reliefpkg_item db).

Definition set_reliefpkg_item (db : DB) (l : list (ReliefPkgItem.t Decimal)) : DB :=
  mkDB (reliefrqst db) (reliefrqst_item db) (inventory db) (reliefpkg db) l.

(** Modelled from the spec: [app.core.audit.add_audit_fields] is not among
    the sources; it records who and when in the audit columns and touches
    nothing else. *)
Definition add_audit_fields (a : audit) (email : string) (is_new : bool) (now : Z) : audit :=
  if is_new
  then mkAudit email now email (Some now)
  else mkAudit (create_by_id a) (create_dtime a) email (Some now).

(** *** Queries *)

Definition ReliefRqst_get (db : DB) (id : Z) : option ReliefRqst.t :=
  find (fun r => ReliefRqst.reliefrqst_id r =? id) (reliefrqst db).

Definition ReliefPkg_get (db : DB) (id : Z) : option ReliefPkg.t :=
  find (fun p => ReliefPkg.reliefpkg_id p =? id) (reliefpkg db).

(** [Inventory.query.filter_by(warehouse_id=..., status_code='A').first()] *)
Definition active_inventory (db : DB) (warehouse_id : Z) : option Inventory.t :=
  find (fun i => (Inventory.warehouse_id i =? warehouse_id)
                 && String.eqb (Inventory.status_code i) "A")
       (inventory db).

(** [ReliefRqstItem.query.filter_by(reliefrqst_id=..., item_id=...).first()] *)
Definition rqst_item_of (db : DB) (reliefrqst_id item_id : Z) : option ReliefRqstItem.t :=
  find (fun r => (ReliefRqstItem.reliefrqst_id r =? reliefrqst_id)
                 && (ReliefRqstItem.item_id r =? item_id))
       (reliefrqst_item db).

(** [Inventory.query.filter_by(warehouse_id=..., item_id=..., status_code='A').first()] *)
Definition source_inventory_of (db : DB) (warehouse_id item_id : Z) : option Inventory.t :=
  find (fun i => (Inventory.warehouse_id i =? warehouse_id)
                 && (Inventory.item_id i =? item_id)
                 && String.eqb (Inventory.status_code i) "A")
       (inventory db).

(** *** Flushing through the hooks of [Locking] *)

Definition versioned_entity (class_name : string) (key : list (string * Locking.pyval))
    (version : Z) (dirty : bool) : Locking.entity :=
  Locking.mkEntity class_name key (Locking.Present (Some version))
    false dirty dirty true Locking.Absent.

Definition entity_version (e : Locking.entity) (otherwise : Z) : Z :=
  match Locking.version_nbr e with
  | Locking.Present (Some v) => v
  | _ => otherwise
  end.

(** One flush seen from the hooks: before-flush, the UPDATEs (which write
    the attributes as they are), after-flush. When the after-flush hook
    raises it has already called [session.rollback()] inside the flush:
    the flush finds its transaction closed, and what reaches the caller is
    sqlalchemy's [ResourceClosedError], with the hook's error as context. *)
Definition guarded_flush (objs : list Locking.entity) : exn + list Locking.entity :=
  let '(s1, _) := Locking.enforce_optimistic_lock (Locking.mkSession objs false) in
  let '(s2, _, raised) := Locking.verify_optimistic_lock s1 in
  match raised with
  | Some e => inl (ResourceClosedError e)
  | None => inr (Locking.identity_map s2)
  end.

Definition rqst_item_key (r : ReliefRqstItem.t) : Z * Z :=
  (ReliefRqstItem.reliefrqst_id r, ReliefRqstItem.item_id r).

Definition key_eqb (a b : Z * Z) : bool :=
  (fst a =? fst b) && (snd a =? snd b).

Definition rqst_item_entity (dirty : list (Z * Z)) (r : ReliefRqstItem.t) : Locking.entity :=
  versioned_entity "ReliefRqstItem"
    [("reliefrqst_id"%string, Locking.PInt (ReliefRqstItem.reliefrqst_id r));
     ("item_id"%string, Locking.PInt (ReliefRqstItem.item_id r))]
    (ReliefRqstItem.version_nbr r)
    (existsb (key_eqb (rqst_item_key r)) dirty).

Definition with_rqst_item_version (r : ReliefRqstItem.t) (e : Locking.entity) : ReliefRqstItem.t :=
  ReliefRqstItem.mk (ReliefRqstItem.reliefrqst_id r) (ReliefRqstItem.item_id r)
    (ReliefRqstItem.request_qty r) (ReliefRqstItem.issue_qty r)
    (entity_version e (ReliefRqstItem.version_nbr r)).

Definition pkg_item_key {qty : Type} (p : ReliefPkgItem.t qty) : Z * Z * Z :=
  (ReliefPkgItem.reliefpkg_id p, ReliefPkgItem.fr_inventory_id p, ReliefPkgItem.item_id p).

Definition key3_eqb (a b : Z * Z * Z) : bool :=
  (fst (fst a) =? fst (fst b)) && (snd (fst a) =? snd (fst b)) && (snd a =? snd b).

Section Handlers.

(** Python and database built-ins, taken as parameters: [None] stands for
    the [ValueError] that [int], [float] and [strptime] raise on a string
    they do not accept; [to_numeric] is the value the database stores in a
    [Numeric(12, 2)] column for a float. *)
Variable py_int : string -> option Z.
Variable py_float : string -> option pyfloat.
Variable strptime_date : string -> option Z.
Variable str_upper : string -> string.
Variable to_numeric : pyfloat -> Decimal.

(** INSERT of the pending package items, in the order they were added; a
    primary key already present raises. *)
Fixpoint insert_pkg_items (pending : list (ReliefPkgItem.t pyfloat))
    (table : list (ReliefPkgItem.t Decimal)) : exn + list (ReliefPkgItem.t Decimal) :=
  match pending with
  | [] => inr table
  | p :: rest =>
    if existsb (fun row => key3_eqb (pkg_item_key row) (pkg_item_key p)) table
    then inl IntegrityError
    else insert_pkg_items rest
           (table ++ [ReliefPkgItem.mk (ReliefPkgItem.reliefpkg_id p)
                        (ReliefPkgItem.fr_inventory_id p) (ReliefPkgItem.item_id p)
                        (to_numeric (ReliefPkgItem.item_qty p))
                        (ReliefPkgItem.uom_code p) (ReliefPkgItem.audit_cols p)
                        (ReliefPkgItem.version_nbr p)])
  end.

(** [session.flush()], also run by autoflush before a query and by
    [session.commit()]. *)
Definition flush (s : Session) : exn + Session :=
  let rows := reliefrqst_item (view s) in
  match guarded_flush (map (rqst_item_entity (dirty_rqst_items s)) rows) with
  | inl e => inl e
  | inr objs =>
    match insert_pkg_items (new_pkg_items s) (reliefpkg_item (view s)) with
    | inl e => inl e
    | inr items =>
      inr (mkSess
             (set_reliefpkg_item
                (set_reliefrqst_item (view s)
                   (map (fun ro => with_rqst_item_version (fst ro) (snd ro)) (combine rows objs)))
                items)
             [] [])
    end
  end.

(** What a handler reads from the Flask request: the method, the form
    ([form.get] gives [None] for a missing field, [form.getlist] a list),
    the logged-in user and the clock. *)
Record request : Type := mkRequest {
  is_post : bool;
  form_reliefrqst_id : option string;
  form_warehouse_id : option string;
  form_start_date : option string;
  form_transport_mode : option string;
  form_comments_text : option string;
  form_rqst_item_ids : list string;           (* getlist('rqst_item_id[]') *)
  form_item_qtys : list string;               (* getlist('item_qty[]') *)
  current_user_email : string;
  now : Z
}.

(** [int(request.form.get(...))]: [int(None)] is a [TypeError]. *)
Definition int_of_field (v : option string) : flow Z :=
  match v with
  | None => Raise TypeError
  | Some s => match py_int s with
              | None => Raise ValueError
              | Some z => Next z
              end
  end.

Definition date_of_field (v : option string) : flow Z :=
  match v with
  | None => Raise TypeError
  | Some s => match strptime_date s with
              | None => Raise ValueError
              | Some d => Next d
              end
  end.

Definition parsed {A : Type} (v : option A) : flow A :=
  match v with
  | None => Raise ValueError
  | Some a => Next a
  end.

(** Lines 81-119: the checks on one line item, in the order of the source.
    The queries autoflush the session first. *)
Definition validate_line (reliefrqst_id warehouse_id : Z) (s : Session)
    (rqst_item_id_str qty_str : string)
  : flow (Session * Z * pyfloat * ReliefRqstItem.t * Inventory.t) :=
  rqst_item_id <- parsed (py_int rqst_item_id_str) ;;
  qty <- parsed (py_float qty_str) ;;
  if float_le_zero qty then Return InvalidQuantity
  else
    s <- try (flush s) ;;
    match rqst_item_of (view s) reliefrqst_id rqst_item_id with
    | None => Return ItemNotInRequest
    | Some rqst_item =>
      let remaining_qty :=
        ReliefRqstItem.request_qty rqst_item - ReliefRqstItem.issue_qty rqst_item in
      exceeds <- try (float_gt_decimal qty remaining_qty) ;;
      if (exceeds : bool) then Return QuantityExceedsRemaining
      else
        match source_inventory_of (view s) warehouse_id rqst_item_id with
        | None => Return ItemNotStocked
        | Some source_inventory =>
          short <- try (decimal_lt_float (Inventory.usable_qty source_inventory) qty) ;;
          if (short : bool) then Return InsufficientStock
          else Next (s, rqst_item_id, qty, rqst_item, source_inventory)
        end
    end.

Definition with_issue_qty (issue_qty : Decimal) (key : Z * Z) (r : ReliefRqstItem.t)
  : ReliefRqstItem.t :=
  if key_eqb (rqst_item_key r) key
  then ReliefRqstItem.mk (ReliefRqstItem.reliefrqst_id r) (ReliefRqstItem.item_id r)
         (ReliefRqstItem.request_qty r) issue_qty (ReliefRqstItem.version_nbr r)
  else r.

(** Lines 121-132: the package item is added to the session, then
    [rqst_item.issue_qty += qty]. The request item has no audit columns, so
    [add_audit_fields] on it leaves the row as it is. *)
Definition allocate_line (rq : request) (package : ReliefPkg.t)
    (checked : Session * Z * pyfloat * ReliefRqstItem.t * Inventory.t) : flow Session :=
  let '(s, rqst_item_id, qty, rqst_item, source_inventory) := checked in
  let pkg_item :=
    ReliefPkgItem.mk (ReliefPkg.reliefpkg_id package)
      (Inventory.inventory_id source_inventory) rqst_item_id qty
      (Inventory.uom_code source_inventory)
      (add_audit_fields (mkAudit EmptyString 0 EmptyString None)
         (current_user_email rq) true (now rq))
      1 in
  let s := mkSess (view s) (new_pkg_items s ++ [pkg_item]) (dirty_rqst_items s) in
  issue_qty <- try (decimal_iadd_float (ReliefRqstItem.issue_qty rqst_item) qty) ;;
  Next (mkSess
          (set_reliefrqst_item (view s)
             (map (with_issue_qty issue_qty (rqst_item_key rqst_item))
                  (reliefrqst_item (view s))))
          (new_pkg_items s)
          (rqst_item_key rqst_item :: dirty_rqst_items s)).

(** One iteration of the loop of line 79. *)
Definition process_line (rq : request) (reliefrqst_id warehouse_id : Z)
    (package : ReliefPkg.t) (s : Session) (line : string * string) : flow Session :=
  let '(rqst_item_id_str, qty_str) := line in
  if truthy rqst_item_id_str && truthy qty_str
  then
    checked <- validate_line reliefrqst_id warehouse_id s rqst_item_id_str qty_str ;;
    allocate_line rq package checked
  else Next s.

Fixpoint process_lines (rq : request) (reliefrqst_id warehouse_id : Z)
    (package : ReliefPkg.t) (s : Session) (pairs : list (string * string)) : flow Session :=
  match pairs with
  | [] => Next s
  | line :: rest =>
    s <- process_line rq reliefrqst_id warehouse_id package s line ;;
    process_lines rq reliefrqst_id warehouse_id package s rest
  end.

(** [all(not qty_str or float(qty_str) <= 0 for qty_str in item_qtys if qty_str)] *)
Fixpoint all_nonpositive (item_qtys : list string) : flow bool :=
  match item_qtys with
  | [] => Next true
  | qty_str :: rest =>
    if truthy qty_str
    then
      qty <- parsed (py_float qty_str) ;;
      if float_le_zero qty then all_nonpositive rest else Next false
    else all_nonpositive rest
  end.

(** The condition of line 134; [or] does not evaluate its second operand
    when the first holds. *)
Definition nothing_to_package (rq : request) : flow bool :=
  if (List.length (form_rqst_item_ids rq) =? 0)%nat then Next true
  else all_nonpositive (form_item_qtys rq).

(** The autoincremented primary key of a new package: the database's
    choice, here one past the largest in the table. *)
Definition next_reliefpkg_id (db : DB) : Z :=
  fold_right Z.max 0 (map ReliefPkg.reliefpkg_id (reliefpkg db)) + 1.

(** Lines 41-74 of [create_package]: the request, the warehouse and its
    placeholder inventory, then the package, added and flushed. *)
Definition create_package_prelude (rq : request) (db : DB)
  : flow (Z * Z * ReliefPkg.t * Session) :=
  reliefrqst_id <- int_of_field (form_reliefrqst_id rq) ;;
  match ReliefRqst_get db reliefrqst_id with
  | None => Raise NotFound
  | Some relief_request =>
    if negb ((ReliefRqst.status_code relief_request =? 2)
             || (ReliefRqst.status_code relief_request =? 3))
    then Return InvalidState
    else
      warehouse_id <- int_of_field (form_warehouse_id rq) ;;
      start_date <- date_of_field (form_start_date rq) ;;
      match active_inventory db warehouse_id with
      | None => Return NoActiveInventory
      | Some inventory =>
        let package :=
          ReliefPkg.mk (next_reliefpkg_id db) (Inventory.inventory_id inventory)
            reliefrqst_id start_date None
            (form_transport_mode rq) (form_comments_text rq) "P"
            (add_audit_fields (mkAudit EmptyString 0 EmptyString None)
               (current_user_email rq) true (now rq))
            (str_upper (current_user_email rq)) (Some (now rq)) 1 in
        s <- try (flush (mkSess (set_reliefpkg db (reliefpkg db ++ [package])) [] [])) ;;
        Next (reliefrqst_id, warehouse_id, package, s)
      end
  end.

(** Lines 76-139: the loop over the line items, the test for an empty
    package and [db.session.commit()]. *)
Definition create_package_lines (rq : request)
    (started : Z * Z * ReliefPkg.t * Session) : flow (Z * Session) :=
  let '(reliefrqst_id, warehouse_id, package, s) := started in
  s <- process_lines rq reliefrqst_id warehouse_id package s
         (combine (form_rqst_item_ids rq) (form_item_qtys rq)) ;;
  empty <- nothing_to_package rq ;;
  if (empty : bool) then Return EmptyPackage
  else
    s <- try (flush s) ;;
    Next (ReliefPkg.reliefpkg_id package, s).

(** The body of the [try] of [create_package]: the id of the package and
    the session as committed. *)
Definition create_package_try (rq : request) (db : DB) : flow (Z * Session) :=
  started <- create_package_prelude rq db ;;
  create_package_lines rq started.

(** [create_package]. Every [return] inside the loop and the [except]
    branch call [db.session.rollback()]; the two returns before the package
    is added have nothing to roll back: in each case the committed rows are
    the ones the request found. *)
Definition create_package (rq : request) (db : DB) : response * DB :=
  if is_post rq
  then
    match create_package_try rq db with
    | Next (package_id, s) => (RedirectViewPackage package_id, view s)
    | Return why => (RedirectCreatePackage why, db)
    | Raise e => (RedirectCreatePackage (ErrorCreating e), db)
    end
  else (RenderCreateForm, db).

Definition dispatched (p : ReliefPkg.t) (email : string) (now : Z) (version : Z) : ReliefPkg.t :=
  ReliefPkg.mk (ReliefPkg.reliefpkg_id p) (ReliefPkg.to_inventory_id p)
    (ReliefPkg.reliefrqst_id p) (ReliefPkg.start_date p)
    (Some now)
    (ReliefPkg.transport_mode p) (ReliefPkg.comments_text p)
    "D"
    (add_audit_fields (ReliefPkg.audit_cols p) email false now)
    (ReliefPkg.verify_by_id p) (ReliefPkg.verify_dtime p)
    version.

(** [dispatch_package]: [get_or_404] and [commit] are outside any [try]. *)
Definition dispatch_package (rq : request) (package_id : Z) (db : DB) : response * DB :=
  match ReliefPkg_get db package_id with
  | None => (Abort404, db)
  | Some package =>
    if negb (String.eqb (ReliefPkg.status_code package) "P")
    then (RedirectViewPackageDanger package_id InvalidState, db)
    else
      match guarded_flush
              [versioned_entity "ReliefPkg"
                 [("reliefpkg_id"%string, Locking.PInt (ReliefPkg.reliefpkg_id package))]
                 (ReliefPkg.version_nbr package) true] with
      | inl e => (Unhandled e, db)
      | inr objs =>
        let version :=
          match objs with
          | obj :: _ => entity_version obj (ReliefPkg.version_nbr package)
          | [] => ReliefPkg.version_nbr package
          end in
        let package' := dispatched package (current_user_email rq) (now rq) version in
        (RedirectViewPackage package_id,
         set_reliefpkg db
           (map (fun p => if ReliefPkg.reliefpkg_id p =? package_id then package' else p)
                (reliefpkg db)))
      end
  end.

End Handlers.
End Workflow.

(** ** The wording of the specification, for comparison with the code *)
Module Spec.
Import Py Models Workflow.

(** Step 4 of CreatePackage as the specification words it: the checks on
    one line item of quantity [qty], given the RequestItem and the active
    source Inventory found for it, if any. [None]: the line item passes. *)
Definition line_item_check (qty : Q) (rqst_item : option ReliefRqstItem.t)
    (source : option Inventory.t) : option error :=
  if Qle_bool qty 0 then Some InvalidQuantity
  else
    match rqst_item with
    | None => Some ItemNotInRequest
    | Some ri =>
      let remaining := ReliefRqstItem.request_qty ri - ReliefRqstItem.issue_qty ri in
      if Qlt_bool (decimal_value remaining) qty then Some QuantityExceedsRemaining
      else
        match source with
        | None => Some ItemNotStocked
        | Some inv =>
          if Qlt_bool (decimal_value (Inventory.usable_qty inv)) qty
          then Some InsufficientStock
          else None
        end
    end.

(** [issuedQty <= requestedQty] on every RequestItem. *)
Definition issue_le_request (db : DB) : Prop :=
  Forall (fun r => ReliefRqstItem.issue_qty r <= ReliefRqstItem.request_qty r)
         (reliefrqst_item db).

(** A quantity string that is empty or reads as a quantity [<= 0]. *)
Definition nonpositive_qty (py_float : string -> option pyfloat) (qty_str : string) : Prop :=
  truthy qty_str = false \/
  exists f, py_float qty_str = Some f /\ float_le_zero f = true.

(** A pair the loop of [create_package] passes over. *)
Definition skipped (line : string * string) : bool :=
  negb (truthy (fst line) && truthy (snd line)).

Section Reachable.
Variable py_int : string -> option Z.
Variable py_float : string -> option pyfloat.
Variable strptime_date : string -> option Z.
Variable str_upper : string -> string.
Variable to_numeric : pyfloat -> Decimal.

(** The databases reached from [db0] by calls of the two handlers. *)
Inductive reachable (db0 : DB) : DB -> Prop :=
| reach_start : reachable db0 db0
| reach_create_package : forall db rq,
    reachable db0 db ->
    reachable db0
      (snd (create_package py_int py_float strptime_date str_upper to_numeric rq db))
| reach_dispatch_package : forall db rq package_id,
    reachable db0 db ->
    reachable db0 (snd (dispatch_package rq package_id db)).

End Reachable.
End Spec.

(** ** Worked examples: built-ins on plain literals, and the scenario of
    the specification *)
Module Examples.
Import Py Models Workflow.

Fixpoint digits_value (s : string) (acc : Z) : option Z :=
  match s with
  | EmptyString => Some acc
  | String c rest =>
    let n := Z.of_nat (Ascii.nat_of_ascii c) in
    if (48 <=? n) && (n <=? 57)
    then digits_value rest (10 * acc + (n - 48))
    else None
  end.

(** [int] on an optional minus sign followed by decimal digits. *)
Definition int_of_literal (s : string) : option Z :=
  match s with
  | EmptyString => None
  | String "-"%char EmptyString => None
  | String "-"%char rest => option_map Z.opp (digits_value rest 0)
  | _ => digits_value s 0
  end.

(** [float] on the same literals (exact for the short ones used here). *)
Definition float_of_literal (s : string) : option pyfloat :=
  option_map (fun z => Finite (z # 1)) (int_of_literal s).

(** [strptime(s, '%Y-%m-%d').date()] on the one date the examples submit. *)
Definition date_of_literal (s : string) : option Z :=
  if String.eqb s "2025-11-03" then Some 20251103 else None.

Definition upper_char (c : Ascii.ascii) : Ascii.ascii :=
  let n := Ascii.nat_of_ascii c in
  if ((97 <=? n) && (n <=? 122))%nat then Ascii.ascii_of_nat (n - 32) else c.

Fixpoint upper (s : string) : string :=
  match s with
  | EmptyString => EmptyString
  | String c rest => String (upper_char c) (upper rest)
  end.

(** A float with at most two decimals stored in a [Numeric(12, 2)] column. *)
Definition numeric_of_float (f : pyfloat) : Decimal :=
  match f with
  | Finite q => (Qnum q * 100) / Zpos (Qden q)
  | _ => 0
  end.

Definition create (rq : request) (db : DB) : response * DB :=
  create_package int_of_literal float_of_literal date_of_literal upper numeric_of_float rq db.

(** RequestItem(requestedQty=100, issuedQty=0), Inventory(usable=50), under
    an approved request 1 for item 7, stocked at warehouse 3. *)
Definition scenario_db : DB :=
  mkDB [ReliefRqst.mk 1 2]
       [ReliefRqstItem.mk 1 7 10000 0 1]
       [Inventory.mk 1 3 7 5000 0 0 0 "EA" "A" 1]
       []
       [].

Definition package_form (ids qtys : list string) : request :=
  mkRequest true (Some "1"%string) (Some "3"%string) (Some "2025-11-03"%string)
    (Some "TRUCK"%string) None ids qtys "ops@odpem.gov.jm" 1762183800.

Definition scenario_package : ReliefPkg.t :=
  ReliefPkg.mk 1 1 1 20251103 None (Some "TRUCK"%string) None "P"
    (mkAudit "ops@odpem.gov.jm" 1762183800 "ops@odpem.gov.jm" (Some 1762183800))
    "OPS@ODPEM.GOV.JM" (Some 1762183800) 1.

(** A guarded object whose version after the flush is not the stamped one
    (marker 1, version 5), between two objects that pass. *)
Definition stale_session : Locking.session :=
  Locking.mkSession
    [Locking.mkEntity "Inventory" [("inventory_id"%string, Locking.PInt 1)]
       (Locking.Present (Some 2)) false false false true (Locking.Present 1);
     Locking.mkEntity "ReliefRqstItem"
       [("reliefrqst_id"%string, Locking.PInt 1); ("item_id"%string, Locking.PInt 7)]
       (Locking.Present (Some 5)) false false false true (Locking.Present 1);
     Locking.mkEntity "ReliefPkg" [("reliefpkg_id"%string, Locking.PInt 1)]
       (Locking.Present (Some 3)) false false false true Locking.Absent]
    false.

(** Three dirty objects before a flush: an ordinary one, one whose version
    the caller set, one whose version is [None]. *)
Definition dirty_session : Locking.session :=
  Locking.mkSession
    [Locking.mkEntity "Inventory" [("inventory_id"%string, Locking.PInt 1)]
       (Locking.Present (Some 4)) false true true true Locking.Absent;
     Locking.mkEntity "ReliefPkg" [("reliefpkg_id"%string, Locking.PInt 1)]
       (Locking.Present (Some 9)) true true true true Locking.Absent;
     Locking.mkEntity "Item" [("item_id"%string, Locking.PInt 7)]
       (Locking.Present None) false true true true Locking.Absent]
    false.

End Examples.

(** ** The other handlers of [packages_aidmgmt.py] *)
Module Listing.
Import Py Models Workflow.

(** The columns of [Warehouse] the handlers read. *)
Module Warehouse.
Record t : Type := mk {
  warehouse_id : Z;
  warehouse_name : string;
  status_code : string
}.
End Warehouse.

(** [ORDER BY key DESC], by insertion. *)
Fixpoint insert_desc {A : Type} (key : A -> Z) (x : A) (l : list A) : list A :=
  match l with
  | [] => [x]
  | y :: rest => if key y <? key x then x :: l else y :: insert_desc key x rest
  end.

Definition order_by_desc {A : Type} (key : A -> Z) (l : list A) : list A :=
  fold_right (insert_desc key) [] l.

(** The order of a list sorted by [key], largest first. *)
Definition desc {A : Type} (key : A -> Z) (a b : A) : Prop := key b <= key a.

Definition has_status (code : string) (p : ReliefPkg.t) : bool :=
  String.eqb (ReliefPkg.status_code p) code.

(** [list_packages]: the packages handed to the template, and the filter
    echoed to it. [status] is [request.args.get('status')], [None] when
    the argument is missing. *)
Definition list_packages (status : option string) (db : DB) : list ReliefPkg.t * string :=
  let status_filter := match status with Some s => s | None => "all"%string end in
  let query :=
    if String.eqb status_filter "pending" then filter (has_status "P") (reliefpkg db)
    else if String.eqb status_filter "dispatched" then filter (has_status "D") (reliefpkg db)
    else if String.eqb status_filter "completed" then filter (has_status "C") (reliefpkg db)
    else reliefpkg db in
  (order_by_desc ReliefPkg.reliefpkg_id query, status_filter).

(** A page rendered from a row fetched with [get_or_404]. *)
Inductive page (A : Type) : Type :=
| NotFound404
| Rendered (a : A).
Arguments NotFound404 {A}.
Arguments Rendered {A} a.

(** [view_package] *)
Definition view_package (package_id : Z) (db : DB) : page ReliefPkg.t :=
  match ReliefPkg_get db package_id with
  | None => NotFound404
  | Some package => Rendered package
  end.

Definition packagable (r : ReliefRqst.t) : bool :=
  (ReliefRqst.status_code r =? 2) || (ReliefRqst.status_code r =? 3).

(** What [create_package] hands to the template on a GET. *)
Record create_context : Type := mkContext {
  approved_requests : list ReliefRqst.t;
  selected_request : option ReliefRqst.t;
  request_items : list ReliefRqstItem.t;
  warehouses : list Warehouse.t;
  today : Z
}.

(** Lines 149-170 of [create_package]. [request_id] is
    [request.args.get('request_id', type=int)]: [None] when the argument is
    missing or is not an integer. The test [if reliefrqst_id:] also fails
    for 0. [selected_request.items] are the request items of that request. *)
Definition create_package_get (request_id : option Z) (date_today : Z) (db : DB)
    (warehouse : list Warehouse.t) : create_context :=
  let selected :=
    match request_id with
    | None => None
    | Some reliefrqst_id =>
      if reliefrqst_id =? 0 then None
      else find (fun r => ReliefRqst.reliefrqst_id r =? reliefrqst_id) (reliefrqst db)
    end in
  let items :=
    match selected with
    | Some r =>
      if packagable r
      then filter (fun i => ReliefRqstItem.reliefrqst_id i =? ReliefRqst.reliefrqst_id r)
                  (reliefrqst_item db)
      else []
    | None => []
    end in
  mkContext
    (order_by_desc ReliefRqst.reliefrqst_id (filter packagable (reliefrqst db)))
    selected
    items
    (filter (fun w => String.eqb (Warehouse.status_code w) "A") warehouse)
    date_today.

End Listing.

(** ** The handlers of [user_admin.py] *)
Module UserAdmin.
Import Py.

Module User.
Record t : Type := mk {
  id : Z;
  email : string;
  password_hash : string;
  first_name : option string;
  last_name : option string;
  full_name : option string;
  role : option string;
  is_active : bool;
  organization : option string;
  job_title : option string;
  phone : option string;
  created_at : option Z
}.
End User.

Module Role.
Record t : Type := mk {
  id : Z;
  code : string;
  name : string
}.
End Role.

Module UserRole.
Record t : Type := mk {
  user_id : Z;
  role_id : Z;
  assigned_at : option Z
}.
End UserRole.

Module UserWarehouse.
Record t : Type := mk {
  user_id : Z;
  warehouse_id : Z;
  assigned_at : option Z
}.
End UserWarehouse.

(** The tables of the user administration. Column widths are not
    modelled; primary keys and foreign keys are. *)
Record DB : Type := mkDB {
  user : list User.t;
  role : list Role.t;
  user_role : list UserRole.t;
  user_warehouse : list UserWarehouse.t;
  warehouse : list Listing.Warehouse.t
}.

Inductive flash : Type :=
| Required                  (* 'Email and password are required.' *)
| EmailExists               (* 'A user with this email already exists.' *)
| OwnAccount.               (* 'You cannot deactivate your own account.' *)

Inductive response : Type :=
| RenderCreate (why : option flash) (roles : list Role.t)
    (warehouses : list Listing.Warehouse.t)
| RenderEdit (u : User.t) (roles : list Role.t) (warehouses : list Listing.Warehouse.t)
    (user_role_ids : list Z) (user_warehouse_ids : list Z)
| RedirectIndex                                     (* flash 'success' *)
| RedirectView (user_id : Z) (why : option flash)
| Abort404
| Unhandled (e : exn).

(** The form of the create and edit pages ([form.get] gives [None] for a
    missing field), the logged-in user and the clock. *)
Record request : Type := mkRequest {
  is_post : bool;
  form_email : option string;
  form_password : option string;
  form_first_name : option string;
  form_last_name : option string;
  form_organization : option string;
  form_job_title : option string;
  form_phone : option string;
  form_is_active : option string;
  form_roles : list string;                   (* getlist('roles') *)
  form_warehouses : list string;              (* getlist('warehouses') *)
  current_user_id : Z;
  utcnow : Z
}.

(** [request.form.get(name, '')] *)
Definition get_or_empty (v : option string) : string :=
  match v with
  | Some s => s
  | None => EmptyString
  end.

(** [s if s else None], [s or None] *)
Definition or_none (s : string) : option string :=
  if truthy s then Some s else None.

(** [request.form.get('is_active') == 'on'] *)
Definition checkbox (v : option string) : bool :=
  match v with
  | Some s => String.eqb s "on"
  | None => false
  end.

Definition active_warehouses (db : DB) : list Listing.Warehouse.t :=
  filter (fun w => String.eqb (Listing.Warehouse.status_code w) "A") (warehouse db).

Definition user_by_email (db : DB) (e : string) : option User.t :=
  find (fun u => String.eqb (User.email u) e) (user db).

Definition User_get (db : DB) (user_id : Z) : option User.t :=
  find (fun u => User.id u =? user_id) (user db).

(** The autoincremented [id] of a new user: one past the largest. *)
Definition next_user_id (db : DB) : Z :=
  fold_right Z.max 0 (map User.id (user db)) + 1.

Definition set_user (db : DB) (l : list User.t) : DB :=
  mkDB l (role db) (user_role db) (user_warehouse db) (warehouse db).

Definition set_links (db : DB) (ur : list UserRole.t) (uw : list UserWarehouse.t) : DB :=
  mkDB (user db) (role db) ur uw (warehouse db).

Section Handlers.

(** Built-ins taken as parameters: [int] ([None] for a [ValueError]),
    [str.strip], [str.lower] and werkzeug's [generate_password_hash]. *)
Variable py_int : string -> option Z.
Variable str_strip : string -> string.
Variable str_lower : string -> string.
Variable generate_password_hash : string -> string.

(** [int(x)] for each [x] of a list, stopping at the first that raises. *)
Fixpoint ints (l : list string) : exn + list Z :=
  match l with
  | [] => inr []
  | x :: rest =>
    match py_int x with
    | None => inl ValueError
    | Some z =>
      match ints rest with
      | inl e => inl e
      | inr zs => inr (z :: zs)
      end
    end
  end.

(** INSERT of the [UserRole] rows of a user: the role must exist, the
    primary key [(user_id, role_id)] must be new. *)
Fixpoint insert_user_roles (db : DB) (now user_id : Z) (role_ids : list Z)
    (table : list UserRole.t) : exn + list UserRole.t :=
  match role_ids with
  | [] => inr table
  | r :: rest =>
    if negb (existsb (fun x => Role.id x =? r) (role db)) then inl IntegrityError
    else if existsb (fun x => (UserRole.user_id x =? user_id) && (UserRole.role_id x =? r)) table
    then inl IntegrityError
    else insert_user_roles db now user_id rest
           (table ++ [UserRole.mk user_id r (Some now)])
  end.

Fixpoint insert_user_warehouses (db : DB) (now user_id : Z) (warehouse_ids : list Z)
    (table : list UserWarehouse.t) : exn + list UserWarehouse.t :=
  match warehouse_ids with
  | [] => inr table
  | w :: rest =>
    if negb (existsb (fun x => Listing.Warehouse.warehouse_id x =? w) (warehouse db))
    then inl IntegrityError
    else if existsb (fun x => (UserWarehouse.user_id x =? user_id)
                              && (UserWarehouse.warehouse_id x =? w)) table
    then inl IntegrityError
    else insert_user_warehouses db now user_id rest
           (table ++ [UserWarehouse.mk user_id w (Some now)])
  end.

(** The two loops over [getlist('roles')] and [getlist('warehouses')] and
    the commit that inserts the rows they added. An exception leaves the
    handler without a commit. *)
Definition add_links (rq : request) (user_id : Z) (db : DB) : exn + DB :=
  match ints (form_roles rq) with
  | inl e => inl e
  | inr role_ids =>
    match ints (form_warehouses rq) with
    | inl e => inl e
    | inr warehouse_ids =>
      match insert_user_roles db (utcnow rq) user_id role_ids (user_role db) with
      | inl e => inl e
      | inr ur =>
        match insert_user_warehouses db (utcnow rq) user_id warehouse_ids
                (user_warehouse db) with
        | inl e => inl e
        | inr uw => inr (set_links db ur uw)
        end
      end
    end
  end.

(** The email [create] reads from the form, normalised. *)
Definition submitted_email (rq : request) : string :=
  str_lower (str_strip (get_or_empty (form_email rq))).

(** [create] *)
Definition create (rq : request) (db : DB) : response * DB :=
  if is_post rq
  then
    let email := str_lower (str_strip (get_or_empty (form_email rq))) in
    let password := get_or_empty (form_password rq) in
    let first_name := str_strip (get_or_empty (form_first_name rq)) in
    let last_name := str_strip (get_or_empty (form_last_name rq)) in
    let organization := str_strip (get_or_empty (form_organization rq)) in
    let job_title := str_strip (get_or_empty (form_job_title rq)) in
    let phone := str_strip (get_or_empty (form_phone rq)) in
    let is_active := checkbox (form_is_active rq) in
    if negb (truthy email) || negb (truthy password)
    then (RenderCreate (Some Required) (role db) (active_warehouses db), db)
    else
      match user_by_email db email with
      | Some _ => (RenderCreate (Some EmailExists) (role db) (active_warehouses db), db)
      | None =>
        let full_name := str_strip (first_name ++ " " ++ last_name)%string in
        let new_user :=
          User.mk (next_user_id db) email (generate_password_hash password)
            (Some first_name) (Some last_name) (or_none full_name) None is_active
            (or_none organization) (or_none job_title) (or_none phone)
            (Some (utcnow rq)) in
        match add_links rq (User.id new_user) (set_user db (user db ++ [new_user])) with
        | inl e => (Unhandled e, db)
        | inr db' => (RedirectIndex, db')
        end
      end
  else (RenderCreate None (role db) (active_warehouses db), db).

Definition with_is_active (active : bool) (user_id : Z) (u : User.t) : User.t :=
  if User.id u =? user_id
  then User.mk (User.id u) (User.email u) (User.password_hash u) (User.first_name u)
         (User.last_name u) (User.full_name u) (User.role u) active
         (User.organization u) (User.job_title u) (User.phone u) (User.created_at u)
  else u.

(** [deactivate]: the test on the user's own id comes before the lookup. *)
Definition deactivate (rq : request) (user_id : Z) (db : DB) : response * DB :=
  if user_id =? current_user_id rq
  then (RedirectView user_id (Some OwnAccount), db)
  else
    match User_get db user_id with
    | None => (Abort404, db)
    | Some _ => (RedirectIndex, set_user db (map (with_is_active false user_id) (user db)))
    end.

(** [activate] *)
Definition activate (user_id : Z) (db : DB) : response * DB :=
  match User_get db user_id with
  | None => (Abort404, db)
  | Some _ => (RedirectIndex, set_user db (map (with_is_active true user_id) (user db)))
  end.

Definition edited (rq : request) (u : User.t) : User.t :=
  let first_name := str_strip (get_or_empty (form_first_name rq)) in
  let last_name := str_strip (get_or_empty (form_last_name rq)) in
  let full_name := str_strip (first_name ++ " " ++ last_name)%string in
  let password := str_strip (get_or_empty (form_password rq)) in
  User.mk (User.id u) (User.email u)
    (if truthy password then generate_password_hash password else User.password_hash u)
    (Some first_name) (Some last_name) (or_none full_name) (User.role u)
    (checkbox (form_is_active rq))
    (or_none (str_strip (get_or_empty (form_organization rq))))
    (or_none (str_strip (get_or_empty (form_job_title rq))))
    (or_none (str_strip (get_or_empty (form_phone rq))))
    (User.created_at u).

(** [edit]. On a POST the role links of the user are deleted and those of
    the form added; the bulk delete of the warehouse links autoflushes, so
    the new role links are inserted before the warehouse ids are read; the
    warehouse links are inserted by the commit. [user.roles] and
    [user.warehouses] on a GET are the roles and warehouses the links of
    the user point to. *)
Definition edit (rq : request) (user_id : Z) (db : DB) : response * DB :=
  match User_get db user_id with
  | None => (Abort404, db)
  | Some u =>
    if is_post rq
    then
      let db1 :=
        set_user db (map (fun x => if User.id x =? user_id then edited rq u else x)
                         (user db)) in
      match ints (form_roles rq) with
      | inl e => (Unhandled e, db)
      | inr role_ids =>
        match insert_user_roles db1 (utcnow rq) (User.id u) role_ids
                (filter (fun x => negb (UserRole.user_id x =? User.id u))
                        (user_role db1)) with
        | inl e => (Unhandled e, db)
        | inr ur =>
          match ints (form_warehouses rq) with
          | inl e => (Unhandled e, db)
          | inr warehouse_ids =>
            match insert_user_warehouses db1 (utcnow rq) (User.id u) warehouse_ids
                    (filter (fun x => negb (UserWarehouse.user_id x =? User.id u))
                            (user_warehouse db1)) with
            | inl e => (Unhandled e, db)
            | inr uw => (RedirectView (User.id u) None, set_links db1 ur uw)
            end
          end
        end
      end
    else
      (RenderEdit u (role db) (active_warehouses db)
         (map Role.id
            (filter (fun r => existsb (fun x => (UserRole.user_id x =? User.id u)
                                                && (UserRole.role_id x =? Role.id r))
                                      (user_role db))
                    (role db)))
         (map Listing.Warehouse.warehouse_id
            (filter (fun w => existsb (fun x => (UserWarehouse.user_id x =? User.id u)
                                                && (UserWarehouse.warehouse_id x
                                                    =? Listing.Warehouse.warehouse_id w))
                                      (user_warehouse db))
                    (warehouse db))),
       db)
  end.

End Handlers.
End UserAdmin.

(** ** Worked examples for the user administration *)
Module UserExamples.
Import Py UserAdmin.

Definition lower_char (c : Ascii.ascii) : Ascii.ascii :=
  let n := Ascii.nat_of_ascii c in
  if ((65 <=? n) && (n <=? 90))%nat then Ascii.ascii_of_nat (n + 32) else c.

(** [str.lower] on ASCII text. *)
Fixpoint lower (s : string) : string :=
  match s with
  | EmptyString => EmptyString
  | String c rest => String (lower_char c) (lower rest)
  end.

Fixpoint lstrip (l : list Ascii.ascii) : list Ascii.ascii :=
  match l with
  | " "%char :: rest => lstrip rest
  | _ => l
  end.

(** [str.strip] on text whose only white space is the space. *)
Definition strip (s : string) : string :=
  string_of_list_ascii (rev (lstrip (rev (lstrip (list_ascii_of_string s))))).

(** A stand-in for [generate_password_hash]. *)
Definition hash_of (password : string) : string := ("pbkdf2:" ++ password)%string.

Definition admin_db : DB :=
  mkDB [User.mk 1 "admin@odpem.gov.jm" "pbkdf2:root" (Some "Ada"%string)
          (Some "Admin"%string) (Some "Ada Admin"%string) None true None None None (Some 100);
        User.mk 2 "clerk@odpem.gov.jm" "pbkdf2:pw" (Some "Cy"%string)
          (Some "Clerk"%string) (Some "Cy Clerk"%string) None true None None None (Some 200)]
       [Role.mk 1 "SYSTEM_ADMINISTRATOR" "System administrator";
        Role.mk 2 "LOGISTICS_OFFICER" "Logistics officer"]
       [UserRole.mk 1 1 (Some 100); UserRole.mk 2 2 (Some 200)]
       [UserWarehouse.mk 2 3 (Some 200)]
       [Listing.Warehouse.mk 3 "Kingston" "A"; Listing.Warehouse.mk 4 "Montego Bay" "I"].

(** The form of a new user, submitted by user 1. *)
Definition new_user_form : request :=
  mkRequest true (Some "  Nia@ODPEM.gov.jm "%string) (Some "s3cret"%string)
    (Some "Nia"%string) (Some " Reid"%string) None None None (Some "on"%string)
    ["2"%string] ["3"%string] 1 300.

Definition post_by (user_id : Z) : request :=
  mkRequest true None None None None None None None None [] [] user_id 300.

End UserExamples.

(** ** Facts about the hooks *)
Module LockingFacts.
Import Locking.

Lemma enforce_one_keeps_identity (obj : entity) :
  cls (fst (enforce_one obj)) = cls obj /\
  pk (fst (enforce_one obj)) = pk obj /\
  persistent (fst (enforce_one obj)) = persistent obj.
Proof.
  unfold enforce_one.
  destruct (version_nbr obj) as [|[v|]]; simpl; auto;
    destruct (is_modified obj); simpl; auto;
    destruct (version_nbr_changed obj); simpl; auto.
Qed.

Lemma enforce_loop_nth (objs : list entity) :
  forall n obj,
    nth_error objs n = Some obj ->
    nth_error (fst (enforce_loop objs)) n
    = Some (if in_dirty obj then fst (enforce_one obj) else obj).
Proof.
  induction objs as [|o rest IH]; intros [|n] obj H; simpl in H; try discriminate.
  - injection H as ->. simpl.
    destruct (in_dirty obj); [destruct (enforce_one obj)|];
      destruct (enforce_loop rest); reflexivity.
  - specialize (IH _ _ H). simpl.
    destruct (if in_dirty o then enforce_one o else (o, [])).
    destruct (enforce_loop rest). exact IH.
Qed.

Lemma enforce_loop_log (objs : list entity) :
  forall n obj w,
    nth_error objs n = Some obj ->
    in_dirty obj = true ->
    In w (snd (enforce_one obj)) ->
    In w (snd (enforce_loop objs)).
Proof.
  induction objs as [|o rest IH]; intros [|n] obj w H Hd Hw; simpl in H; try discriminate.
  - injection H as ->. simpl. rewrite Hd.
    destruct (enforce_one obj) as [o' l1]. destruct (enforce_loop rest) as [r' l2].
    simpl in *. apply in_or_app. now left.
  - specialize (IH _ _ _ H Hd Hw). simpl.
    destruct (if in_dirty o then enforce_one o else (o, [])) as [o' l1].
    destruct (enforce_loop rest) as [r' l2].
    simpl in *. apply in_or_app. now right.
Qed.

Lemma enforce_loop_in (objs : list entity) :
  forall obj',
    In obj' (fst (enforce_loop objs)) ->
    exists obj, In obj objs /\
      obj' = (if in_dirty obj then fst (enforce_one obj) else obj).
Proof.
  induction objs as [|o rest IH]; intros obj' H; simpl in H.
  - contradiction.
  - destruct (if in_dirty o then enforce_one o else (o, [])) as [o1 l1] eqn:E.
    destruct (enforce_loop rest) as [r' l2]. simpl in *.
    destruct H as [<-|H].
    + exists o. split; [now left|]. destruct (in_dirty o).
      * now rewrite E.
      * now inversion E.
    + destruct (IH _ H) as [obj [Hin Heq]]. exists obj. split; [now right|exact Heq].
Qed.

(** What the before-flush hook leaves on an object that carried no marker:
    either no marker, or the marker [v] beside the version [v + 1]. *)
Lemma enforce_one_stamp (obj : entity) :
  _original_version_nbr obj = Absent ->
  _original_version_nbr (fst (enforce_one obj)) = Absent \/
  exists v, _original_version_nbr (fst (enforce_one obj)) = Present v /\
            version_nbr (fst (enforce_one obj)) = Present (Some (v + 1)).
Proof.
  intros Hm. unfold enforce_one.
  destruct (version_nbr obj) as [|[v|]]; simpl; auto;
    destruct (is_modified obj); simpl; auto;
    destruct (version_nbr_changed obj); simpl; auto.
  right. exists v. split; reflexivity.
Qed.

Lemma stamped_not_stale (obj : entity) (v : Z) :
  _original_version_nbr obj = Present v ->
  version_nbr obj = Present (Some (v + 1)) ->
  stale obj = false.
Proof.
  intros Hm Hv. unfold stale, version_mismatch. rewrite Hm. simpl. rewrite Hv.
  destruct (persistent obj); [rewrite Z.eqb_refl|]; reflexivity.
Qed.

Lemma unmarked_not_stale (obj : entity) :
  _original_version_nbr obj = Absent -> stale obj = false.
Proof. intros Hm. unfold stale. now rewrite Hm. Qed.

Lemma verify_loop_stale (objs : list entity) :
  existsb stale objs = true ->
  exists obj rest log,
    In obj objs /\ stale obj = true /\
    verify_loop objs = (rest, log, Some (mkLockError (cls obj) (pk obj))).
Proof.
  induction objs as [|o r IH]; simpl; intros H; [discriminate|].
  unfold stale at 1 in H.
  destruct (_original_version_nbr o) as [|v] eqn:Hm.
  - simpl in H. destruct (IH H) as (obj & rest & log & Hin & Hst & Hv).
    exists obj, (o :: rest), log. rewrite Hv. auto.
  - destruct (version_mismatch (set_original o Absent) v) as [got|] eqn:Hmm.
    + exists o. eexists. eexists. split; [now left|]. split.
      * unfold stale. now rewrite Hm, Hmm.
      * reflexivity.
    + simpl in H. destruct (IH H) as (obj & rest & log & Hin & Hst & Hv).
      exists obj, (set_original o Absent :: rest), log. rewrite Hv. auto.
Qed.

Lemma verify_loop_fresh (objs : list entity) :
  existsb stale objs = false ->
  snd (verify_loop objs) = None.
Proof.
  induction objs as [|o r IH]; simpl; intros H; [reflexivity|].
  apply orb_false_iff in H. destruct H as [Ho Hr]. specialize (IH Hr).
  unfold stale in Ho.
  destruct (_original_version_nbr o) as [|v].
  - destruct (verify_loop r) as [[rest log] e]. exact IH.
  - destruct (version_mismatch (set_original o Absent) v); [discriminate|].
    destruct (verify_loop r) as [[rest log] e]. exact IH.
Qed.

Lemma existsb_false_forall {A : Type} (p : A -> bool) (l : list A) :
  (forall a, In a l -> p a = false) -> existsb p l = false.
Proof.
  induction l as [|a l IH]; simpl; intros H; [reflexivity|].
  rewrite (H a (or_introl eq_refl)). simpl. apply IH. intros b Hb. apply H. now right.
Qed.

(** The after-flush hook taken alone: if some guarded entity of the
    session carries a version other than the recorded prior version plus
    one, the hook calls [session.rollback()] and raises the error built
    from the class name and primary key of such an entity (the first one
    met); and when no guarded entity is in that case the hook raises
    nothing and rolls nothing back. *)
Lemma verify_stale_rolls_back (s : session) :
  (existsb stale (identity_map s) = true ->
   exists obj s' log,
     In obj (identity_map s) /\ stale obj = true /\
     verify_optimistic_lock s = (s', log, Some (mkLockError (cls obj) (pk obj))) /\
     rolled_back s' = true) /\
  (existsb stale (identity_map s) = false ->
   snd (verify_optimistic_lock s) = None /\
   rolled_back (fst (fst (verify_optimistic_lock s))) = rolled_back s).
Proof.
  split; intros H.
  - destruct (verify_loop_stale _ H) as (obj & rest & log & Hin & Hst & Hv).
    exists obj. unfold verify_optimistic_lock. rewrite Hv.
    eexists. eexists. repeat split; auto.
  - pose proof (verify_loop_fresh _ H) as Hv. unfold verify_optimistic_lock.
    destruct (verify_loop (identity_map s)) as [[rest log] e]. simpl in *.
    subst e. split; reflexivity.
Qed.

(** The hook alone at a concrete session: the request item with marker 1
    and version 5 is reported, the session is rolled back. *)
Lemma verify_stale_rolls_back_example :
  verify_optimistic_lock Examples.stale_session
  = (mkSession
       [mkEntity "Inventory" [("inventory_id"%string, PInt 1)]
          (Present (Some 2)) false false false true Absent;
        mkEntity "ReliefRqstItem"
          [("reliefrqst_id"%string, PInt 1); ("item_id"%string, PInt 7)]
          (Present (Some 5)) false false false true Absent;
        mkEntity "ReliefPkg" [("reliefpkg_id"%string, PInt 1)]
          (Present (Some 3)) false false false true Absent]
       true,
     [LogError "ReliefRqstItem" 2 (Some 5)],
     Some (mkLockError "ReliefRqstItem"
             [("reliefrqst_id"%string, PInt 1); ("item_id"%string, PInt 7)])).
Proof. reflexivity. Qed.

(** C4. For a dirty entity with unsaved changes that carries a version
    attribute: when the caller changed the version itself the before-flush
    hook leaves the entity as it is; otherwise, when the version is [None],
    it leaves the entity as it is and logs a warning naming its class;
    otherwise it records the current version [v] in the marker and sets the
    version to [v + 1], the identity of the entity unchanged. *)
Theorem enforce_guards_dirty_entity (s : session) (n : nat) (obj : entity) (cur : option Z) :
  nth_error (identity_map s) n = Some obj ->
  in_dirty obj = true ->
  is_modified obj = true ->
  version_nbr obj = Present cur ->
  exists obj',
    nth_error (identity_map (fst (enforce_optimistic_lock s))) n = Some obj' /\
    (version_nbr_changed obj = true -> obj' = obj) /\
    (version_nbr_changed obj = false -> cur = None ->
       obj' = obj /\ In (LogWarning (cls obj)) (snd (enforce_optimistic_lock s))) /\
    (forall v, version_nbr_changed obj = false -> cur = Some v ->
       _original_version_nbr obj' = Present v /\
       version_nbr obj' = Present (Some (v + 1)) /\
       cls obj' = cls obj /\ pk obj' = pk obj).
Proof.
  intros Hn Hd Hm Hv.
  exists (fst (enforce_one obj)).
  pose proof (enforce_loop_nth _ _ _ Hn) as Hn'. rewrite Hd in Hn'.
  assert (Hlog : forall w, In w (snd (enforce_one obj)) ->
                           In w (snd (enforce_optimistic_lock s))).
  { intros w Hw. unfold enforce_optimistic_lock.
    pose proof (enforce_loop_log _ _ _ w Hn Hd Hw) as Hl.
    destruct (enforce_loop (identity_map s)). exact Hl. }
  split.
  { unfold enforce_optimistic_lock.
    destruct (enforce_loop (identity_map s)). exact Hn'. }
  unfold enforce_one in *. rewrite Hv, Hm in *. simpl in *.
  repeat split.
  - intros Hc. now rewrite Hc.
  - rewrite H in *. subst cur. reflexivity.
  - apply Hlog. rewrite H. subst cur. simpl. now left.
  - rewrite H. subst cur. reflexivity.
  - rewrite H. subst cur. reflexivity.
  - rewrite H. subst cur. reflexivity.
  - rewrite H. subst cur. reflexivity.
Qed.

Lemma enforce_guards_dirty_entity_witness :
  exists obj',
    nth_error (identity_map (fst (enforce_optimistic_lock Examples.dirty_session))) 0 = Some obj' /\
    (false = true -> obj' = mkEntity "Inventory" [("inventory_id"%string, PInt 1)]
                             (Present (Some 4)) false true true true Absent) /\
    (false = false -> Some 4 = None ->
       obj' = mkEntity "Inventory" [("inventory_id"%string, PInt 1)]
                (Present (Some 4)) false true true true Absent /\
       In (LogWarning "Inventory") (snd (enforce_optimistic_lock Examples.dirty_session))) /\
    (forall v, false = false -> Some 4 = Some v ->
       _original_version_nbr obj' = Present v /\
       version_nbr obj' = Present (Some (v + 1)) /\
       cls obj' = "Inventory"%string /\ pk obj' = [("inventory_id"%string, PInt 1)]).
Proof.
  apply (enforce_guards_dirty_entity Examples.dirty_session 0
           (mkEntity "Inventory" [("inventory_id"%string, PInt 1)]
              (Present (Some 4)) false true true true Absent) (Some 4));
    reflexivity.
Defined.

Lemma verify_stale_rolls_back_witness :
  exists obj s' log,
    In obj (identity_map Examples.stale_session) /\ stale obj = true /\
    verify_optimistic_lock Examples.stale_session
    = (s', log, Some (mkLockError (cls obj) (pk obj))) /\
    rolled_back s' = true.
Proof.
  apply (proj1 (verify_stale_rolls_back Examples.stale_session)). reflexivity.
Defined.

Lemma enforced_not_stale (flushed : entity -> entity) (objs : list entity) :
  (forall obj, In obj objs -> _original_version_nbr obj = Absent) ->
  (forall obj, version_nbr (flushed obj) = version_nbr obj /\
               _original_version_nbr (flushed obj) = _original_version_nbr obj) ->
  existsb stale (map flushed (fst (enforce_loop objs))) = false.
Proof.
  intros Hfresh Hfl. apply existsb_false_forall. intros o Ho.
  apply in_map_iff in Ho. destruct Ho as (o1 & <- & Ho1).
  destruct (Hfl o1) as [Hv Hm].
  destruct (enforce_loop_in _ _ Ho1) as (o0 & Hin & ->).
  pose proof (Hfresh _ Hin) as Hm0.
  destruct (in_dirty o0).
  - destruct (enforce_one_stamp _ Hm0) as [Ha|(v & Hp & Hq)].
    + apply unmarked_not_stale. now rewrite Hm.
    + apply (stamped_not_stale _ v); [now rewrite Hm|now rewrite Hv].
  - apply unmarked_not_stale. now rewrite Hm.
Qed.

(** C9. In a session where no object carries a marker yet, let the
    before-flush hook run, then a flush that changes neither the version
    attribute nor the marker of any object, then the after-flush hook. Every
    marker the first hook left stands beside the version it wrote itself
    (marker [v], version [v + 1]), so the comparison of the second hook
    holds for every object: it raises nothing and rolls nothing back. *)
Theorem verify_after_enforce_never_raises (s : session) (flushed : entity -> entity) :
  (forall obj, In obj (identity_map s) -> _original_version_nbr obj = Absent) ->
  (forall obj, version_nbr (flushed obj) = version_nbr obj /\
               _original_version_nbr (flushed obj) = _original_version_nbr obj) ->
  let s1 := fst (enforce_optimistic_lock s) in
  let s2 := mkSession (map flushed (identity_map s1)) (rolled_back s1) in
  (forall obj v, In obj (identity_map s2) ->
     _original_version_nbr obj = Present v ->
     version_nbr obj = Present (Some (v + 1))) /\
  snd (verify_optimistic_lock s2) = None /\
  rolled_back (fst (fst (verify_optimistic_lock s2))) = rolled_back s.
Proof.
  intros Hfresh Hfl s1 s2.
  assert (Hobjs : identity_map s1 = fst (enforce_loop (identity_map s)) /\
                  rolled_back s1 = rolled_back s).
  { unfold s1, enforce_optimistic_lock.
    destruct (enforce_loop (identity_map s)); split; reflexivity. }
  destruct Hobjs as [Hobjs Hrb].
  split.
  - intros obj v Hin Hm. unfold s2 in Hin. simpl in Hin. rewrite Hobjs in Hin.
    apply in_map_iff in Hin. destruct Hin as (o1 & <- & Ho1).
    destruct (Hfl o1) as [Hv Hm1]. rewrite Hm1 in Hm. rewrite Hv.
    destruct (enforce_loop_in _ _ Ho1) as (o0 & Hin0 & ->).
    pose proof (Hfresh _ Hin0) as Hm0.
    destruct (in_dirty o0).
    + destruct (enforce_one_stamp _ Hm0) as [Ha|(w & Hp & Hq)].
      * rewrite Ha in Hm. discriminate.
      * rewrite Hp in Hm. injection Hm as <-. exact Hq.
    + rewrite Hm0 in Hm. discriminate.
  - assert (Hst : existsb stale (identity_map s2) = false).
    { unfold s2. simpl. rewrite Hobjs. now apply enforced_not_stale. }
    pose proof (verify_loop_fresh _ Hst) as Hv.
    unfold verify_optimistic_lock.
    destruct (verify_loop (identity_map s2)) as [[rest log] e]. simpl in *.
    subst e. split; [reflexivity|]. exact Hrb.
Qed.

Lemma verify_after_enforce_never_raises_witness :
  snd (verify_optimistic_lock
         (mkSession
            (map (fun obj => obj)
               (identity_map (fst (enforce_optimistic_lock Examples.dirty_session))))
            (rolled_back (fst (enforce_optimistic_lock Examples.dirty_session)))))
  = None.
Proof.
  apply (verify_after_enforce_never_raises Examples.dirty_session (fun obj => obj)).
  - intros obj [<-|[<-|[<-|[]]]]; reflexivity.
  - intros obj. split; reflexivity.
Defined.

(** C3. The code does not do what the claim says. Take an object loaded
    at version [v], dirty and modified, and let the row hold any version
    [stored] when the flush writes it (another writer may have committed in
    between): the before-flush hook stamps the object, the UPDATE carries
    no version predicate and overwrites the row, and the after-flush hook
    compares the stamped attribute with the value it was stamped with, so
    nothing is raised, nothing is rolled back, and the row ends at version
    [v + 1]. So it is for the package 1 loaded at version 1 while the row
    has reached version 2. And in a session where the comparison of the
    after-flush hook does fail, the flush hands its caller sqlalchemy's
    [ResourceClosedError], not the error that names the class and the
    primary key. *)
Theorem stale_write_is_not_detected (class_name : string)
    (key : list (string * pyval)) (v : Z) (stored : option Z) :
  guarded_update stored
    (mkEntity class_name key (Present (Some v)) false true true true Absent)
  = (None, Some (v + 1)) /\
  guarded_update (Some 2)
    (mkEntity "ReliefPkg" [("reliefpkg_id"%string, PInt 1)]
       (Present (Some 1)) false true true true Absent)
  = (None, Some 2) /\
  Workflow.guarded_flush (identity_map Examples.stale_session)
  = inl (Py.ResourceClosedError
           (mkLockError "ReliefRqstItem"
              [("reliefrqst_id"%string, PInt 1); ("item_id"%string, PInt 7)])).
Proof.
  split; [|split; reflexivity].
  unfold guarded_update, enforce_optimistic_lock, verify_optimistic_lock. simpl.
  unfold version_mismatch. simpl. rewrite Z.eqb_refl. reflexivity.
Qed.

End LockingFacts.

(** ** Facts about the handlers *)
Module WorkflowFacts.
Import Py Models Workflow Spec.

Lemma enforce_loop_clean (objs : list Locking.entity) :
  (forall obj, In obj objs -> Locking.in_dirty obj = false) ->
  Locking.enforce_loop objs = (objs, []).
Proof.
  induction objs as [|o r IH]; intros H; [reflexivity|].
  simpl. rewrite (H o (or_introl eq_refl)).
  rewrite IH; [reflexivity|]. intros x Hx. apply H. now right.
Qed.

Lemma verify_loop_unmarked (objs : list Locking.entity) :
  (forall obj, In obj objs -> Locking._original_version_nbr obj = Locking.Absent) ->
  Locking.verify_loop objs = (objs, [], None).
Proof.
  induction objs as [|o r IH]; intros H; [reflexivity|].
  simpl. rewrite (H o (or_introl eq_refl)).
  rewrite IH; [reflexivity|]. intros x Hx. apply H. now right.
Qed.

Lemma guarded_flush_clean (objs : list Locking.entity) :
  (forall obj, In obj objs -> Locking.in_dirty obj = false) ->
  (forall obj, In obj objs -> Locking._original_version_nbr obj = Locking.Absent) ->
  guarded_flush objs = inr objs.
Proof.
  intros Hd Hm. unfold guarded_flush, Locking.enforce_optimistic_lock,
    Locking.verify_optimistic_lock. simpl.
  rewrite (enforce_loop_clean _ Hd). simpl.
  rewrite (verify_loop_unmarked _ Hm). reflexivity.
Qed.

Lemma rebuild_rqst_items (rows : list ReliefRqstItem.t) :
  map (fun ro => with_rqst_item_version (fst ro) (snd ro))
      (combine rows (map (rqst_item_entity []) rows)) = rows.
Proof.
  induction rows as [|r rows IH]; [reflexivity|].
  simpl. rewrite IH. destruct r. reflexivity.
Qed.

Section Handlers.
Variable py_int : string -> option Z.
Variable py_float : string -> option pyfloat.
Variable strptime_date : string -> option Z.
Variable str_upper : string -> string.
Variable to_numeric : pyfloat -> Decimal.

Local Abbreviation flush := (flush to_numeric).
Local Abbreviation validate_line := (validate_line py_int py_float to_numeric).
Local Abbreviation process_line := (process_line py_int py_float to_numeric).
Local Abbreviation process_lines := (process_lines py_int py_float to_numeric).
Local Abbreviation all_nonpositive := (all_nonpositive py_float).
Local Abbreviation nothing_to_package := (nothing_to_package py_float).
Local Abbreviation create_package_prelude :=
  (create_package_prelude py_int strptime_date str_upper to_numeric).
Local Abbreviation create_package_lines := (create_package_lines py_int py_float to_numeric).
Local Abbreviation create_package_try :=
  (create_package_try py_int py_float strptime_date str_upper to_numeric).
Local Abbreviation create_package :=
  (create_package py_int py_float strptime_date str_upper to_numeric).

(** A flush with nothing pending and nothing dirty changes nothing. *)
Lemma flush_clean (v : DB) : flush (mkSess v [] []) = inr (mkSess v [] []).
Proof.
  unfold Workflow.flush. simpl.
  rewrite guarded_flush_clean.
  - rewrite rebuild_rqst_items. destruct v. reflexivity.
  - intros obj H. apply in_map_iff in H. destruct H as (r & <- & _). reflexivity.
  - intros obj H. apply in_map_iff in H. destruct H as (r & <- & _). reflexivity.
Qed.

(** [rqst_item.issue_qty += qty] raises: no line item gets past it. *)
Lemma allocate_line_raises (rq : request) (package : ReliefPkg.t)
    (checked : Session * Z * pyfloat * ReliefRqstItem.t * Inventory.t) :
  allocate_line rq package checked = Raise TypeError.
Proof. destruct checked as [[[[s i] q] r] inv]. reflexivity. Qed.

Lemma process_line_next (rq : request) (rid wid : Z) (package : ReliefPkg.t)
    (s s' : Session) (line : string * string) :
  process_line rq rid wid package s line = Next s' ->
  s' = s /\ skipped line = true.
Proof.
  destruct line as [i q]. unfold Workflow.process_line, skipped. simpl.
  destruct (truthy i && truthy q).
  - destruct (validate_line rid wid s i q); simpl; try discriminate.
    rewrite allocate_line_raises. discriminate.
  - intros H. injection H as <-. auto.
Qed.

Lemma process_line_skipped (rq : request) (rid wid : Z) (package : ReliefPkg.t)
    (s : Session) (line : string * string) :
  skipped line = true ->
  process_line rq rid wid package s line = Next s.
Proof.
  destruct line as [i q]. unfold Workflow.process_line, skipped. simpl.
  destruct (truthy i && truthy q); [discriminate|reflexivity].
Qed.

Lemma process_lines_next (rq : request) (rid wid : Z) (package : ReliefPkg.t)
    (lines : list (string * string)) :
  forall s s',
    process_lines rq rid wid package s lines = Next s' ->
    s' = s /\ forallb skipped lines = true.
Proof.
  induction lines as [|l lines IH]; simpl; intros s s' H.
  - injection H as <-. auto.
  - destruct (process_line rq rid wid package s l) as [s1| |] eqn:E; simpl in H;
      try discriminate.
    apply process_line_next in E. destruct E as [-> Hs].
    destruct (IH _ _ H) as [-> Hr]. rewrite Hs, Hr. auto.
Qed.

Lemma process_lines_skipped (rq : request) (rid wid : Z) (package : ReliefPkg.t)
    (lines : list (string * string)) (s : Session) :
  forallb skipped lines = true ->
  process_lines rq rid wid package s lines = Next s.
Proof.
  induction lines as [|l lines IH]; simpl; intros H; [reflexivity|].
  apply andb_true_iff in H. destruct H as [Hl Hr].
  rewrite (process_line_skipped _ _ _ _ _ _ Hl). simpl. now apply IH.
Qed.

(** The loop stops at the first line item that does not fall through. *)
Lemma process_lines_app (rq : request) (rid wid : Z) (package : ReliefPkg.t)
    (before : list (string * string)) :
  forall s s1 after,
    process_lines rq rid wid package s before = Next s1 ->
    process_lines rq rid wid package s (before ++ after)
    = process_lines rq rid wid package s1 after.
Proof.
  induction before as [|l before IH]; simpl; intros s s1 after H.
  - now injection H as <-.
  - destruct (process_line rq rid wid package s l) as [s2| |]; simpl in *;
      try discriminate.
    now apply IH.
Qed.

(** What the prelude hands to the loop. *)
Lemma prelude_next (rq : request) (db : DB) (rid wid : Z) (package : ReliefPkg.t)
    (s : Session) :
  create_package_prelude rq db = Next (rid, wid, package, s) ->
  s = mkSess (set_reliefpkg db (reliefpkg db ++ [package])) [] [] /\
  ReliefPkg.status_code package = "P"%string /\
  ReliefPkg.reliefpkg_id package = next_reliefpkg_id db.
Proof.
  unfold Workflow.create_package_prelude.
  destruct (int_of_field py_int (form_reliefrqst_id rq)) as [r| |]; simpl; try discriminate.
  destruct (ReliefRqst_get db r) as [rr|]; try discriminate.
  destruct (negb _); try discriminate.
  destruct (int_of_field py_int (form_warehouse_id rq)) as [w| |]; simpl; try discriminate.
  destruct (date_of_field strptime_date (form_start_date rq)) as [d| |]; simpl;
    try discriminate.
  destruct (active_inventory db w) as [inv|]; try discriminate.
  rewrite flush_clean. simpl. intros H. injection H as <- <- <- <-. auto.
Qed.

(** The two ways a call of [create_package] ends: nothing is committed, or
    every line item was passed over and the package row alone is committed. *)
Lemma create_package_outcome (rq : request) (db : DB) :
  (snd (create_package rq db) = db /\
   (is_post rq = false /\ fst (create_package rq db) = RenderCreateForm \/
    exists why, fst (create_package rq db) = RedirectCreatePackage why)) \/
  (exists rid wid package s,
     create_package_prelude rq db = Next (rid, wid, package, s) /\
     forallb skipped (combine (form_rqst_item_ids rq) (form_item_qtys rq)) = true /\
     nothing_to_package rq = Next false /\
     create_package rq db
     = (RedirectViewPackage (ReliefPkg.reliefpkg_id package),
        set_reliefpkg db (reliefpkg db ++ [package]))).
Proof.
  unfold Workflow.create_package.
  destruct (is_post rq); [|left; simpl; auto].
  unfold Workflow.create_package_try.
  destruct (create_package_prelude rq db) as [[[[rid wid] package] s]| |] eqn:Hp;
    simpl; [|left; split; [reflexivity|right; eauto]..].
  destruct (prelude_next _ _ _ _ _ _ Hp) as (Hs & _ & _).
  destruct (process_lines rq rid wid package s
              (combine (form_rqst_item_ids rq) (form_item_qtys rq)))
    as [s1| |] eqn:Hl; simpl; [|left; split; [reflexivity|right; eauto]..].
  destruct (process_lines_next _ _ _ _ _ _ _ Hl) as [-> Hsk].
  destruct (nothing_to_package rq) as [[|]| |] eqn:He; simpl;
    [left; split; [reflexivity|right; eauto]| |left; split; [reflexivity|right; eauto]..].
  subst s. rewrite flush_clean. simpl.
  right. exists rid, wid, package. eexists. repeat split; eauto.
Qed.

Lemma create_package_failure_keeps_db (rq : request) (db : DB) (why : error) :
  fst (create_package rq db) = RedirectCreatePackage why ->
  snd (create_package rq db) = db.
Proof.
  intros H. destruct (create_package_outcome rq db) as [[Hdb _]|(r & w & p & s & _ & _ & _ & E)].
  - exact Hdb.
  - rewrite E in H. discriminate.
Qed.

Lemma create_package_keeps_tables (rq : request) (db : DB) :
  inventory (snd (create_package rq db)) = inventory db /\
  reliefrqst_item (snd (create_package rq db)) = reliefrqst_item db /\
  reliefrqst (snd (create_package rq db)) = reliefrqst db /\
  reliefpkg_item (snd (create_package rq db)) = reliefpkg_item db.
Proof.
  destruct (create_package_outcome rq db) as [[-> _]|(r & w & p & s & _ & _ & _ & ->)];
    simpl; auto.
Qed.

Lemma create_package_after_prelude (rq : request) (db : DB)
    (started : Z * Z * ReliefPkg.t * Session) :
  is_post rq = true ->
  create_package_prelude rq db = Next started ->
  create_package rq db
  = match create_package_lines rq started with
    | Next (package_id, s) => (RedirectViewPackage package_id, view s)
    | Return why => (RedirectCreatePackage why, db)
    | Raise e => (RedirectCreatePackage (ErrorCreating e), db)
    end.
Proof.
  intros Hpost Hp. unfold Workflow.create_package, Workflow.create_package_try.
  rewrite Hpost, Hp. reflexivity.
Qed.

Lemma all_nonpositive_true (item_qtys : list string) :
  Forall (nonpositive_qty py_float) item_qtys ->
  all_nonpositive item_qtys = Next true.
Proof.
  induction 1 as [|q l Hq _ IH]; simpl; [reflexivity|].
  destruct Hq as [Hq|(f & Hf & Hle)].
  - now rewrite Hq.
  - destruct (truthy q); [|exact IH]. rewrite Hf. simpl. now rewrite Hle.
Qed.

Lemma nothing_to_package_true (rq : request) :
  form_rqst_item_ids rq = [] \/ Forall (nonpositive_qty py_float) (form_item_qtys rq) ->
  nothing_to_package rq = Next true.
Proof.
  unfold Workflow.nothing_to_package. intros [H|H].
  - now rewrite H.
  - destruct (_ =? _)%nat; [reflexivity|]. now apply all_nonpositive_true.
Qed.


Lemma validate_line_accepts (v : DB) (rid wid : Z) (id_str qty_str : string)
    (item_id : Z) (qty : Q) :
  py_int id_str = Some item_id ->
  py_float qty_str = Some (Finite qty) ->
  line_item_check qty (rqst_item_of v rid item_id) (source_inventory_of v wid item_id)
  = None ->
  exists ri inv,
    rqst_item_of v rid item_id = Some ri /\
    source_inventory_of v wid item_id = Some inv /\
    validate_line rid wid (mkSess v [] []) id_str qty_str
    = Next (mkSess v [] [], item_id, Finite qty, ri, inv).
Proof.
  intros Hi Hq. unfold Workflow.validate_line, line_item_check. rewrite Hi, Hq. simpl.
  destruct (Qle_bool qty 0); [discriminate|].
  rewrite flush_clean. simpl.
  destruct (rqst_item_of v rid item_id) as [ri|]; [|discriminate].
  simpl. destruct (Qlt_bool _ qty); simpl; [discriminate|].
  destruct (source_inventory_of v wid item_id) as [inv|]; [|discriminate].
  simpl. destruct (Qlt_bool _ qty); simpl; [discriminate|].
  intros _. exists ri, inv. auto.
Qed.

(** C5, as the code has it. Once the request and the warehouse are
    accepted, a call whose line-item list is empty, or whose quantities are
    all empty or [<= 0], commits nothing and is answered with an error:
    EmptyPackage when the loop passes over every pair, InvalidQuantity when
    it reaches a pair with both strings non-empty (the loop runs before the
    test for an empty package). *)
Theorem nothing_positive_is_rejected (rq : request) (db : DB) (rid wid : Z)
    (package : ReliefPkg.t) (s0 : Session) :
  is_post rq = true ->
  create_package_prelude rq db = Next (rid, wid, package, s0) ->
  form_rqst_item_ids rq = [] \/ Forall (nonpositive_qty py_float) (form_item_qtys rq) ->
  snd (create_package rq db) = db /\
  (exists why, fst (create_package rq db) = RedirectCreatePackage why) /\
  (forallb skipped (combine (form_rqst_item_ids rq) (form_item_qtys rq)) = true ->
   create_package rq db = (RedirectCreatePackage EmptyPackage, db)) /\
  (forall before id_str qty_str after item_id,
     combine (form_rqst_item_ids rq) (form_item_qtys rq)
     = before ++ (id_str, qty_str) :: after ->
     forallb skipped before = true ->
     skipped (id_str, qty_str) = false ->
     py_int id_str = Some item_id ->
     create_package rq db = (RedirectCreatePackage InvalidQuantity, db)).
Proof.
  intros Hpost Hp Hq.
  pose proof (nothing_to_package_true _ Hq) as He.
  assert (Hfail : snd (create_package rq db) = db /\
                  exists why, fst (create_package rq db) = RedirectCreatePackage why).
  { destruct (create_package_outcome rq db)
      as [[Hdb [[Hn _]|Hw]]|(r & w & p & s & _ & _ & He' & _)].
    - rewrite Hpost in Hn. discriminate.
    - auto.
    - rewrite He in He'. discriminate. }
  destruct Hfail as [Hdb Hwhy].
  repeat split; auto.
  - intros Hsk. rewrite (create_package_after_prelude _ _ _ Hpost Hp).
    unfold Workflow.create_package_lines.
    rewrite (process_lines_skipped _ _ _ _ _ _ Hsk). simpl. now rewrite He.
  - intros before id_str qty_str after item_id Hc Hb Hl Hi.
    rewrite (create_package_after_prelude _ _ _ Hpost Hp).
    unfold Workflow.create_package_lines. rewrite Hc.
    rewrite (process_lines_app _ _ _ _ _ _ _ _ (process_lines_skipped _ _ _ _ _ _ Hb)).
    simpl. unfold skipped in Hl. simpl in Hl. apply negb_false_iff in Hl. rewrite Hl.
    assert (Hin : In qty_str (form_item_qtys rq)).
    { apply (in_combine_r (form_rqst_item_ids rq) _ id_str). rewrite Hc.
      apply in_or_app. right. now left. }
    destruct Hq as [Hq|Hq].
    { rewrite Hq in Hc. simpl in Hc. destruct before; discriminate. }
    rewrite Forall_forall in Hq. destruct (Hq _ Hin) as [Ht|(f & Hf & Hle)].
    + apply andb_true_iff in Hl. destruct Hl as [_ Hl]. rewrite Hl in Ht. discriminate.
    + unfold Workflow.validate_line. rewrite Hi, Hf. simpl. rewrite Hle. reflexivity.
Qed.


End Handlers.



(** C5 fails as stated: a single line item of quantity 0 is answered with
    InvalidQuantity, not EmptyPackage. *)
Lemma zero_quantity_is_invalid_quantity :
  Examples.create (Examples.package_form ["7"%string] ["0"%string]) Examples.scenario_db
  = (RedirectCreatePackage InvalidQuantity, Examples.scenario_db).
Proof. reflexivity. Qed.

Lemma nothing_positive_is_rejected_witness :
  snd (Examples.create (Examples.package_form [""%string; "7"%string] ["0"%string; "-3"%string])
         Examples.scenario_db)
  = Examples.scenario_db.
Proof.
  apply (nothing_positive_is_rejected Examples.int_of_literal Examples.float_of_literal
           Examples.date_of_literal Examples.upper Examples.numeric_of_float
           (Examples.package_form [""%string; "7"%string] ["0"%string; "-3"%string])
           Examples.scenario_db 1 3 Examples.scenario_package
           (mkSess (set_reliefpkg Examples.scenario_db [Examples.scenario_package]) [] [])).
  - reflexivity.
  - reflexivity.
  - right. apply Forall_cons; [|apply Forall_cons; [|apply Forall_nil]];
      right; eexists; split; reflexivity.
Defined.


(** *** [dispatch_package] *)

Lemma guarded_flush_single (class_name : string) (key : list (string * Locking.pyval))
    (v : Z) :
  guarded_flush [versioned_entity class_name key v true]
  = inr [Locking.mkEntity class_name key (Locking.Present (Some (v + 1)))
           true true true true Locking.Absent].
Proof.
  unfold guarded_flush, Locking.enforce_optimistic_lock, Locking.verify_optimistic_lock.
  simpl. unfold Locking.version_mismatch. simpl. rewrite Z.eqb_refl. reflexivity.
Qed.

Lemma find_replaced (l : list ReliefPkg.t) (id : Z) (p p' : ReliefPkg.t) :
  find (fun x => ReliefPkg.reliefpkg_id x =? id) l = Some p ->
  ReliefPkg.reliefpkg_id p' = id ->
  find (fun x => ReliefPkg.reliefpkg_id x =? id)
       (map (fun x => if ReliefPkg.reliefpkg_id x =? id then p' else x) l) = Some p'.
Proof.
  intros H Hid. induction l as [|a l IH]; simpl in *; [discriminate|].
  destruct (ReliefPkg.reliefpkg_id a =? id) eqn:E.
  - rewrite Hid, Z.eqb_refl. reflexivity.
  - rewrite E. now apply IH.
Qed.

Lemma find_others (l : list ReliefPkg.t) (id id' : Z) (p' : ReliefPkg.t) :
  id' <> id ->
  ReliefPkg.reliefpkg_id p' = id ->
  find (fun x => ReliefPkg.reliefpkg_id x =? id')
       (map (fun x => if ReliefPkg.reliefpkg_id x =? id then p' else x) l)
  = find (fun x => ReliefPkg.reliefpkg_id x =? id') l.
Proof.
  intros Hne Hid. induction l as [|a l IH]; simpl; [reflexivity|].
  destruct (ReliefPkg.reliefpkg_id a =? id) eqn:E.
  - apply Z.eqb_eq in E. rewrite Hid, E.
    destruct (id =? id') eqn:E'; [apply Z.eqb_eq in E'; congruence|exact IH].
  - destruct (ReliefPkg.reliefpkg_id a =? id'); [reflexivity|exact IH].
Qed.

(** C7. On a package that exists: from status 'P' the call answers with
    success, the package then has status 'D' and the dispatch time of the
    call, every other package and the tables of inventories, request items,
    requests and package items are as before, and any further call on the
    same id is answered InvalidState and changes nothing; from any other
    status the call is answered InvalidState and changes nothing. *)
Theorem dispatch_only_from_pending (rq : request) (package_id : Z) (db : DB)
    (package : ReliefPkg.t) :
  ReliefPkg_get db package_id = Some package ->
  (ReliefPkg.status_code package = "P"%string ->
   exists package',
     fst (dispatch_package rq package_id db) = RedirectViewPackage package_id /\
     ReliefPkg_get (snd (dispatch_package rq package_id db)) package_id = Some package' /\
     ReliefPkg.status_code package' = "D"%string /\
     ReliefPkg.dispatch_dtime package' = Some (now rq) /\
     (forall other, other <> package_id ->
        ReliefPkg_get (snd (dispatch_package rq package_id db)) other
        = ReliefPkg_get db other) /\
     inventory (snd (dispatch_package rq package_id db)) = inventory db /\
     reliefrqst_item (snd (dispatch_package rq package_id db)) = reliefrqst_item db /\
     reliefrqst (snd (dispatch_package rq package_id db)) = reliefrqst db /\
     reliefpkg_item (snd (dispatch_package rq package_id db)) = reliefpkg_item db /\
     (forall rq2,
        dispatch_package rq2 package_id (snd (dispatch_package rq package_id db))
        = (RedirectViewPackageDanger package_id InvalidState,
           snd (dispatch_package rq package_id db)))) /\
  (ReliefPkg.status_code package <> "P"%string ->
   dispatch_package rq package_id db
   = (RedirectViewPackageDanger package_id InvalidState, db)).
Proof.
  intros Hget.
  assert (Hid : ReliefPkg.reliefpkg_id package = package_id).
  { unfold ReliefPkg_get in Hget. apply find_some in Hget.
    destruct Hget as [_ H]. now apply Z.eqb_eq in H. }
  split.
  - intros Hst.
    set (package' := dispatched package (current_user_email rq) (now rq)
                       (ReliefPkg.version_nbr package + 1)).
    assert (E : dispatch_package rq package_id db
                = (RedirectViewPackage package_id,
                   set_reliefpkg db
                     (map (fun p => if ReliefPkg.reliefpkg_id p =? package_id
                                    then package' else p) (reliefpkg db)))).
    { unfold dispatch_package. rewrite Hget, Hst. simpl.
      rewrite guarded_flush_single. reflexivity. }
    assert (Hget' : ReliefPkg_get (snd (dispatch_package rq package_id db)) package_id
                    = Some package').
    { rewrite E. unfold ReliefPkg_get in *. simpl. now apply (find_replaced _ _ package). }
    exists package'. rewrite Hget'. rewrite E at 1. simpl.
    repeat split; try (rewrite E; reflexivity).
    + intros other Hne. rewrite E. unfold ReliefPkg_get. simpl.
      now apply find_others.
    + intros rq2. unfold dispatch_package at 1. rewrite Hget'. reflexivity.
  - intros Hst. unfold dispatch_package. rewrite Hget.
    destruct (String.eqb_spec (ReliefPkg.status_code package) "P"); [contradiction|].
    reflexivity.
Qed.

Lemma dispatch_only_from_pending_witness :
  dispatch_package (Examples.package_form [] []) 1
    (set_reliefpkg Examples.scenario_db [Examples.scenario_package])
  = dispatch_package (Examples.package_form [] []) 1
      (set_reliefpkg Examples.scenario_db [Examples.scenario_package]) /\
  exists package',
    fst (dispatch_package (Examples.package_form [] []) 1
           (set_reliefpkg Examples.scenario_db [Examples.scenario_package]))
    = RedirectViewPackage 1 /\
    ReliefPkg_get
      (snd (dispatch_package (Examples.package_form [] []) 1
              (set_reliefpkg Examples.scenario_db [Examples.scenario_package]))) 1
    = Some package' /\
    ReliefPkg.status_code package' = "D"%string.
Proof.
  split; [reflexivity|].
  destruct (proj1 (dispatch_only_from_pending (Examples.package_form [] []) 1
                     (set_reliefpkg Examples.scenario_db [Examples.scenario_package])
                     Examples.scenario_package eq_refl) eq_refl)
    as (package' & H1 & H2 & H3 & _).
  exists package'. auto.
Defined.

Lemma dispatch_keeps_request_items (rq : request) (package_id : Z) (db : DB) :
  reliefrqst_item (snd (dispatch_package rq package_id db)) = reliefrqst_item db.
Proof.
  unfold dispatch_package.
  destruct (ReliefPkg_get db package_id) as [p|]; [|reflexivity].
  destruct (negb _); [reflexivity|].
  destruct (guarded_flush _); reflexivity.
Qed.

(** C8. From a database in which every RequestItem has
    [issue_qty <= request_qty], every database reached by calls of
    [create_package] and [dispatch_package] has it too; and a line item
    reaches the increment of [issue_qty] only after the handler has found
    [qty] within the remainder: there [issue_qty + qty <= request_qty]. *)
Theorem issued_never_exceeds_requested
    (py_int : string -> option Z) (py_float : string -> option pyfloat)
    (strptime_date : string -> option Z) (str_upper : string -> string)
    (to_numeric : pyfloat -> Decimal) (db0 db : DB) :
  (issue_le_request db0 ->
   reachable py_int py_float strptime_date str_upper to_numeric db0 db ->
   issue_le_request db) /\
  (forall rid wid s id_str qty_str s' item_id qty ri inv,
     validate_line py_int py_float to_numeric rid wid s id_str qty_str
     = Next (s', item_id, Finite qty, ri, inv) ->
     (decimal_value (ReliefRqstItem.issue_qty ri) + qty
      <= decimal_value (ReliefRqstItem.request_qty ri))%Q).
Proof.
  split.
  - intros H0 Hr. induction Hr as [|d rq _ IH|d rq pid _ IH].
    + exact H0.
    + unfold issue_le_request in *.
      destruct (create_package_keeps_tables py_int py_float strptime_date str_upper
                  to_numeric rq d) as (_ & -> & _). exact IH.
    + unfold issue_le_request in *. now rewrite dispatch_keeps_request_items.
  - intros rid wid s id_str qty_str s' item_id qty ri inv.
    unfold validate_line.
    destruct (py_int id_str) as [i|]; simpl; [|discriminate].
    destruct (py_float qty_str) as [[q| | |]|]; simpl; try discriminate;
      try (destruct (flush to_numeric s) as [e|s1]; simpl; try discriminate;
           destruct (rqst_item_of (view s1) rid i) as [r|]; simpl; discriminate).
    destruct (Qle_bool q 0); [discriminate|].
    destruct (flush to_numeric s) as [e|s1]; simpl; [discriminate|].
    destruct (rqst_item_of (view s1) rid i) as [r|]; [|discriminate].
    simpl.
    destruct (Qlt_bool (decimal_value
                          (ReliefRqstItem.request_qty r - ReliefRqstItem.issue_qty r)) q)
      eqn:Hrem; simpl; [discriminate|].
    destruct (source_inventory_of (view s1) wid i) as [iv|]; [|discriminate].
    simpl.
    destruct (Qlt_bool (decimal_value (Inventory.usable_qty iv)) q); simpl;
      [discriminate|].
    intros H. assert (Hq : q = qty) by congruence. assert (Hr : r = ri) by congruence.
    subst q r.
    unfold Qlt_bool in Hrem. apply negb_false_iff in Hrem.
    apply Qle_bool_iff in Hrem.
    unfold decimal_value, Qle, Qplus in *. destruct qty as [n d].
    cbn [Qnum Qden] in *. rewrite Pos2Z.inj_mul.
    revert Hrem.
    generalize (Z.pos d) (ReliefRqstItem.request_qty ri) (ReliefRqstItem.issue_qty ri).
    unfold Decimal. intros D req iss Hrem. nia.
Qed.

Lemma issued_never_exceeds_requested_witness :
  issue_le_request
    (snd (dispatch_package (Examples.package_form [] []) 1
            (snd (Examples.create (Examples.package_form [""%string] ["5"%string])
                    Examples.scenario_db)))).
Proof.
  apply (proj1 (issued_never_exceeds_requested Examples.int_of_literal
                  Examples.float_of_literal Examples.date_of_literal Examples.upper
                  Examples.numeric_of_float Examples.scenario_db _)).
  - unfold issue_le_request. simpl. apply Forall_cons; [apply Z.leb_le; reflexivity|apply Forall_nil].
  - apply reach_dispatch_package. apply reach_create_package. apply reach_start.
Defined.

(** C10. A pair whose id string or quantity string is empty falls through
    the loop with the session as it was: no check, no error, no package
    item. The call it belongs to still does not succeed when another line
    item is valid: with the pairs ('', '') and ('7', '5') in the scenario,
    the valid line item passes every check and the call ends in the
    [except] branch, nothing committed. *)
Theorem empty_pair_skipped_valid_item_fails :
  (forall py_int py_float to_numeric rq rid wid package s id_str qty_str,
     process_line py_int py_float to_numeric rq rid wid package s (EmptyString, qty_str)
     = Next s /\
     process_line py_int py_float to_numeric rq rid wid package s (id_str, EmptyString)
     = Next s) /\
  validate_line Examples.int_of_literal Examples.float_of_literal Examples.numeric_of_float
    1 3 (mkSess (set_reliefpkg Examples.scenario_db [Examples.scenario_package]) [] [])
    "7" "5"
  = Next (mkSess (set_reliefpkg Examples.scenario_db [Examples.scenario_package]) [] [],
          7, Finite (5 # 1),
          ReliefRqstItem.mk 1 7 10000 0 1,
          Inventory.mk 1 3 7 5000 0 0 0 "EA" "A" 1) /\
  Examples.create
    (Examples.package_form [""%string; "7"%string] [""%string; "5"%string])
    Examples.scenario_db
  = (RedirectCreatePackage (ErrorCreating TypeError), Examples.scenario_db).
Proof.
  split; [|split; reflexivity].
  intros. split.
  - reflexivity.
  - unfold process_line. simpl. now rewrite andb_false_r.
Qed.

End WorkflowFacts.

(** ** More on the hooks *)
Module LockingExtras.
Import Locking.

Lemma enforce_one_again (obj : entity) :
  enforce_one (fst (enforce_one obj)) = enforce_one obj.
Proof.
  unfold enforce_one.
  destruct (version_nbr obj) as [|[v|]] eqn:Hv; simpl; try rewrite Hv; auto;
    destruct (is_modified obj) eqn:Hm; simpl; try rewrite Hv; try rewrite Hm; auto;
    destruct (version_nbr_changed obj) eqn:Hc; simpl;
    try rewrite Hv; try rewrite Hm; try rewrite Hc; auto.
Qed.

Lemma enforce_one_keeps_dirty (obj : entity) :
  in_dirty (fst (enforce_one obj)) = in_dirty obj.
Proof.
  unfold enforce_one.
  destruct (version_nbr obj) as [|[v|]]; simpl; auto;
    destruct (is_modified obj); simpl; auto;
    destruct (version_nbr_changed obj); simpl; auto.
Qed.

Lemma enforce_loop_again (objs : list entity) :
  enforce_loop (fst (enforce_loop objs)) = enforce_loop objs.
Proof.
  induction objs as [|o r IH]; [reflexivity|]. simpl.
  destruct (in_dirty o) eqn:Hd.
  - pose proof (enforce_one_again o) as Ha.
    pose proof (enforce_one_keeps_dirty o) as Hk.
    destruct (enforce_one o) as [o' l1]. destruct (enforce_loop r) as [r' l2].
    simpl in *. rewrite Hk, Hd, Ha, IH. reflexivity.
  - destruct (enforce_loop r) as [r' l2]. simpl in *. rewrite Hd, IH. reflexivity.
Qed.

(** X1. Running the before-flush hook a second time, before the flush has
    reset the attribute histories, changes nothing more: no version is
    stamped twice, and the same warnings are logged. *)
Theorem enforce_is_idempotent (s : session) :
  enforce_optimistic_lock (fst (enforce_optimistic_lock s)) = enforce_optimistic_lock s.
Proof.
  unfold enforce_optimistic_lock.
  pose proof (enforce_loop_again (identity_map s)) as H.
  destruct (enforce_loop (identity_map s)) as [objs log]. simpl in *.
  rewrite H. reflexivity.
Qed.

Lemma enforce_one_version (obj : entity) :
  version_nbr (fst (enforce_one obj)) = version_nbr obj \/
  exists v, version_nbr obj = Present (Some v) /\
            version_nbr (fst (enforce_one obj)) = Present (Some (v + 1)).
Proof.
  unfold enforce_one.
  destruct (version_nbr obj) as [|[v|]] eqn:Hv; simpl; auto;
    destruct (is_modified obj); simpl; auto;
    destruct (version_nbr_changed obj); simpl; auto.
  right. exists v. auto.
Qed.

Lemma enforce_loop_length (objs : list entity) :
  List.length (fst (enforce_loop objs)) = List.length objs.
Proof.
  induction objs as [|o r IH]; [reflexivity|]. simpl.
  destruct (if in_dirty o then enforce_one o else (o, [])).
  destruct (enforce_loop r). simpl in *. now rewrite IH.
Qed.

(** X2. The before-flush hook keeps the objects of the session in place
    and keeps their class, primary key and persistence; an object outside
    [session.dirty] is left exactly as it is; and the version of an object
    either stays or goes from [v] to [v + 1], never anything else. *)
Theorem enforce_keeps_shape (s : session) :
  List.length (identity_map (fst (enforce_optimistic_lock s)))
  = List.length (identity_map s) /\
  forall n obj,
    nth_error (identity_map s) n = Some obj ->
    exists obj',
      nth_error (identity_map (fst (enforce_optimistic_lock s))) n = Some obj' /\
      cls obj' = cls obj /\ pk obj' = pk obj /\ persistent obj' = persistent obj /\
      (in_dirty obj = false -> obj' = obj) /\
      (version_nbr obj' = version_nbr obj \/
       exists v, version_nbr obj = Present (Some v) /\
                 version_nbr obj' = Present (Some (v + 1))).
Proof.
  assert (E : identity_map (fst (enforce_optimistic_lock s))
              = fst (enforce_loop (identity_map s))).
  { unfold enforce_optimistic_lock. destruct (enforce_loop (identity_map s)). reflexivity. }
  rewrite E. split; [apply enforce_loop_length|].
  intros n obj Hn.
  exists (if in_dirty obj then fst (enforce_one obj) else obj).
  split; [now apply LockingFacts.enforce_loop_nth|].
  destruct (in_dirty obj).
  - destruct (LockingFacts.enforce_one_keeps_identity obj) as (H1 & H2 & H3).
    repeat split; auto; [discriminate|apply enforce_one_version].
  - repeat split; auto.
Qed.




Lemma verify_loop_nth (objs : list entity) :
  existsb stale objs = false ->
  forall n obj,
    nth_error objs n = Some obj ->
    exists obj',
      nth_error (fst (fst (verify_loop objs))) n = Some obj' /\
      version_nbr obj' = version_nbr obj /\ _original_version_nbr obj' = Absent.
Proof.
  induction objs as [|o r IH]; intros Hs [|n] obj Hn; simpl in Hn; try discriminate.
  - injection Hn as ->. simpl in *. apply orb_false_iff in Hs. destruct Hs as [Ho Hr].
    unfold stale in Ho.
    destruct (_original_version_nbr obj) as [|v] eqn:Hm.
    + destruct (verify_loop r) as [[r' l] e]. simpl. exists obj. auto.
    + destruct (version_mismatch (set_original obj Absent) v); [discriminate|].
      destruct (verify_loop r) as [[r' l] e]. simpl.
      exists (set_original obj Absent). auto.
  - simpl in Hs. apply orb_false_iff in Hs. destruct Hs as [Ho Hr].
    destruct (IH Hr _ _ Hn) as (obj' & H1 & H2 & H3).
    simpl. unfold stale in Ho.
    destruct (_original_version_nbr o) as [|v].
    + destruct (verify_loop r) as [[r' l] e]. simpl in *. exists obj'. auto.
    + destruct (version_mismatch (set_original o Absent) v); [discriminate|].
      destruct (verify_loop r) as [[r' l] e]. simpl in *. exists obj'. auto.
Qed.

(** X4. In a session without markers, the two hooks run one after the
    other take a dirty, modified object whose version [v] the caller has
    not touched to version [v + 1], and leave it without a marker. *)
Theorem hooks_advance_version_by_one (s : session) (n : nat) (obj : entity) (v : Z) :
  (forall o, In o (identity_map s) -> _original_version_nbr o = Absent) ->
  nth_error (identity_map s) n = Some obj ->
  in_dirty obj = true ->
  is_modified obj = true ->
  version_nbr_changed obj = false ->
  version_nbr obj = Present (Some v) ->
  exists obj',
    nth_error
      (identity_map
         (fst (fst (verify_optimistic_lock (fst (enforce_optimistic_lock s)))))) n
    = Some obj' /\
    version_nbr obj' = Present (Some (v + 1)) /\
    _original_version_nbr obj' = Absent /\
    snd (verify_optimistic_lock (fst (enforce_optimistic_lock s))) = None.
Proof.
  intros Hfresh Hn Hd Hm Hc Hv.
  assert (E : identity_map (fst (enforce_optimistic_lock s))
              = fst (enforce_loop (identity_map s))).
  { unfold enforce_optimistic_lock. destruct (enforce_loop (identity_map s)). reflexivity. }
  assert (Hst : existsb stale (fst (enforce_loop (identity_map s))) = false).
  { pose proof (LockingFacts.enforced_not_stale (fun o => o) (identity_map s) Hfresh) as H.
    rewrite map_id in H. apply H. intros o. auto. }
  pose proof (LockingFacts.enforce_loop_nth _ _ _ Hn) as Hn1. rewrite Hd in Hn1.
  destruct (verify_loop_nth _ Hst _ _ Hn1) as (obj' & H1 & H2 & H3).
  pose proof (LockingFacts.verify_loop_fresh _ Hst) as Hnone.
  exists obj'. unfold verify_optimistic_lock. rewrite E.
  destruct (verify_loop (fst (enforce_loop (identity_map s)))) as [[objs log] e].
  simpl in *. repeat split; auto.
  rewrite H2. unfold enforce_one. rewrite Hv, Hm, Hc. reflexivity.
Qed.

Lemma hooks_advance_version_by_one_witness :
  exists obj',
    nth_error
      (identity_map
         (fst (fst (verify_optimistic_lock
                      (fst (enforce_optimistic_lock Examples.dirty_session)))))) 0
    = Some obj' /\
    version_nbr obj' = Present (Some (4 + 1)) /\
    _original_version_nbr obj' = Absent /\
    snd (verify_optimistic_lock (fst (enforce_optimistic_lock Examples.dirty_session)))
    = None.
Proof.
  apply (hooks_advance_version_by_one Examples.dirty_session 0
           (mkEntity "Inventory" [("inventory_id"%string, PInt 1)]
              (Present (Some 4)) false true true true Absent) 4);
    try reflexivity.
  intros o [<-|[<-|[<-|[]]]]; reflexivity.
Defined.

End LockingExtras.

(** ** More on the package handlers *)
Module WorkflowExtras.
Import Py Models Workflow Spec Listing.
Import Sorted Permutation.

(** *** [ORDER BY ... DESC] *)

Lemma insert_desc_in {A : Type} (key : A -> Z) (x : A) (l : list A) (y : A) :
  In y (insert_desc key x l) <-> y = x \/ In y l.
Proof.
  induction l as [|a l IH]; simpl.
  - split; intros [H|H]; auto; contradiction.
  - destruct (key a <? key x); simpl.
    + split; intros [H|H]; auto.
    + rewrite IH. split; intros H; decompose [or] H; auto.
Qed.

Lemma insert_desc_sorted {A : Type} (key : A -> Z) (x : A) (l : list A) :
  StronglySorted (desc key) l ->
  StronglySorted (desc key) (insert_desc key x l).
Proof.
  induction 1 as [|a l Hl IH Ha]; simpl.
  - constructor; constructor.
  - destruct (key a <? key x) eqn:E.
    + apply Z.ltb_lt in E. constructor.
      * constructor; assumption.
      * constructor; [unfold desc; lia|].
        rewrite Forall_forall in *. intros y Hy. specialize (Ha y Hy).
        unfold desc in *. lia.
    + apply Z.ltb_ge in E. constructor; [exact IH|].
      rewrite Forall_forall in *. intros y Hy.
      apply insert_desc_in in Hy. destruct Hy as [->|Hy]; [exact E|now apply Ha].
Qed.

Lemma order_by_desc_sorted {A : Type} (key : A -> Z) (l : list A) :
  StronglySorted (desc key) (order_by_desc key l).
Proof.
  induction l as [|a l IH]; simpl; [constructor|]. now apply insert_desc_sorted.
Qed.

Lemma insert_desc_perm {A : Type} (key : A -> Z) (x : A) (l : list A) :
  Permutation (x :: l) (insert_desc key x l).
Proof.
  induction l as [|a l IH]; simpl; [reflexivity|].
  destruct (key a <? key x); [reflexivity|].
  rewrite perm_swap. now constructor.
Qed.

Lemma order_by_desc_perm {A : Type} (key : A -> Z) (l : list A) :
  Permutation l (order_by_desc key l).
Proof.
  induction l as [|a l IH]; simpl; [constructor|].
  rewrite <- insert_desc_perm. now constructor.
Qed.

(** X5. [list_packages] hands the template the packages in descending
    order of id. With the filter 'pending', 'dispatched' or 'completed' they
    are the packages of status 'P', 'D' or 'C', each as often as it is in
    the table; with any other filter, or none, all the packages. *)
Theorem list_packages_filters_and_orders (status : option string) (db : DB) :
  StronglySorted (desc ReliefPkg.reliefpkg_id) (fst (list_packages status db)) /\
  (forall code,
     (status = Some "pending"%string /\ code = "P"%string) \/
     (status = Some "dispatched"%string /\ code = "D"%string) \/
     (status = Some "completed"%string /\ code = "C"%string) ->
     Permutation (filter (has_status code) (reliefpkg db)) (fst (list_packages status db))) /\
  (status <> Some "pending"%string ->
   status <> Some "dispatched"%string ->
   status <> Some "completed"%string ->
   Permutation (reliefpkg db) (fst (list_packages status db))).
Proof.
  split; [apply order_by_desc_sorted|]. split.
  - intros code [[-> ->]|[[-> ->]|[-> ->]]]; apply order_by_desc_perm.
  - intros H1 H2 H3. unfold list_packages. simpl.
    destruct status as [s|]; simpl; [|apply order_by_desc_perm].
    destruct (String.eqb_spec s "pending") as [->|_]; [congruence|].
    destruct (String.eqb_spec s "dispatched") as [->|_]; [congruence|].
    destruct (String.eqb_spec s "completed") as [->|_]; [congruence|].
    apply order_by_desc_perm.
Qed.

(** *** [create_package], [view_package] and [dispatch_package] together *)

Lemma id_below_max (l : list ReliefPkg.t) (p : ReliefPkg.t) :
  In p l -> ReliefPkg.reliefpkg_id p <= fold_right Z.max 0 (map ReliefPkg.reliefpkg_id l).
Proof.
  induction l as [|a l IH]; simpl; [contradiction|].
  intros [->|H]; [lia|]. specialize (IH H). lia.
Qed.

Lemma next_id_is_fresh (db : DB) : ReliefPkg_get db (next_reliefpkg_id db) = None.
Proof.
  unfold ReliefPkg_get. destruct (find _ (reliefpkg db)) as [p|] eqn:E; [|reflexivity].
  apply find_some in E. destruct E as [Hin Heq]. apply Z.eqb_eq in Heq.
  pose proof (id_below_max _ _ Hin). unfold next_reliefpkg_id in Heq. lia.
Qed.

Lemma find_appended {A : Type} (f : A -> bool) (l : list A) (x : A) :
  find f l = None -> f x = true -> find f (l ++ [x]) = Some x.
Proof.
  induction l as [|a l IH]; simpl; intros H Hx.
  - now rewrite Hx.
  - destruct (f a); [discriminate|]. now apply IH.
Qed.

Section Handlers.
Variable py_int : string -> option Z.
Variable py_float : string -> option pyfloat.
Variable strptime_date : string -> option Z.
Variable str_upper : string -> string.
Variable to_numeric : pyfloat -> Decimal.

Local Abbreviation create_package :=
  (create_package py_int py_float strptime_date str_upper to_numeric).
Local Abbreviation create_package_prelude :=
  (create_package_prelude py_int strptime_date str_upper to_numeric).
Local Abbreviation validate_line := (validate_line py_int py_float to_numeric).

(** The package the prelude builds. *)
Lemma prelude_package (rq : request) (db : DB) (rid wid : Z) (package : ReliefPkg.t)
    (s : Session) :
  create_package_prelude rq db = Next (rid, wid, package, s) ->
  ReliefPkg.reliefrqst_id package = rid /\
  ReliefPkg.version_nbr package = 1 /\
  ReliefPkg.dispatch_dtime package = None /\
  (exists r, ReliefRqst_get db rid = Some r /\ packagable r = true) /\
  (exists inv, active_inventory db wid = Some inv /\
               ReliefPkg.to_inventory_id package = Inventory.inventory_id inv).
Proof.
  unfold Workflow.create_package_prelude.
  destruct (int_of_field py_int (form_reliefrqst_id rq)) as [r| |]; simpl; try discriminate.
  destruct (ReliefRqst_get db r) as [rr|] eqn:Hr; try discriminate.
  destruct (negb _) eqn:Hst; try discriminate.
  destruct (int_of_field py_int (form_warehouse_id rq)) as [w| |]; simpl; try discriminate.
  destruct (date_of_field strptime_date (form_start_date rq)) as [d| |]; simpl;
    try discriminate.
  destruct (active_inventory db w) as [inv|] eqn:Hi; try discriminate.
  rewrite WorkflowFacts.flush_clean. simpl. intros H. injection H as <- <- <- <-.
  simpl. repeat split.
  - exists rr. split; [exact Hr|]. now apply negb_false_iff in Hst.
  - exists inv. auto.
Qed.

(** X6. When [create_package] answers with the page of a new package, the
    call has added exactly that one package: its id is one past the
    largest in the table, its status is 'P', its version 1, it has no
    dispatch time, its request is one of status 2 or 3 and its destination
    an active inventory; the loop passed over every submitted pair, and
    the other four tables are as the call found them. *)
Theorem create_package_success_adds_one_pending_package (rq : request) (db : DB)
    (package_id : Z) :
  fst (create_package rq db) = RedirectViewPackage package_id ->
  exists package,
    snd (create_package rq db) = set_reliefpkg db (reliefpkg db ++ [package]) /\
    ReliefPkg.reliefpkg_id package = package_id /\
    package_id = next_reliefpkg_id db /\
    ReliefPkg.status_code package = "P"%string /\
    ReliefPkg.version_nbr package = 1 /\
    ReliefPkg.dispatch_dtime package = None /\
    (exists r, ReliefRqst_get db (ReliefPkg.reliefrqst_id package) = Some r /\
               packagable r = true) /\
    (exists inv, In inv (inventory db) /\
                 Inventory.status_code inv = "A"%string /\
                 ReliefPkg.to_inventory_id package = Inventory.inventory_id inv) /\
    forallb skipped (combine (form_rqst_item_ids rq) (form_item_qtys rq)) = true.
Proof.
  intros H.
  destruct (WorkflowFacts.create_package_outcome py_int py_float strptime_date str_upper
              to_numeric rq db)
    as [[_ [[_ Hr]|[why Hw]]]|(rid & wid & package & s & Hp & Hsk & _ & E)].
  - rewrite Hr in H. discriminate.
  - rewrite Hw in H. discriminate.
  - rewrite E in H. simpl in H. injection H as H.
    destruct (WorkflowFacts.prelude_next _ _ _ _ _ _ _ _ _ _ Hp) as (_ & Hst & Hid).
    destruct (prelude_package _ _ _ _ _ _ Hp) as (Hrid & Hv & Hd & Hreq & (inv & Hi & Hto)).
    exists package. rewrite E. simpl. rewrite Hrid.
    repeat split; auto; try congruence.
    exists inv. unfold active_inventory in Hi. apply find_some in Hi.
    destruct Hi as [Hin Hb]. apply andb_true_iff in Hb. destruct Hb as [_ Hb].
    apply String.eqb_eq in Hb. auto.
Qed.

(** X7. The page [create_package] redirects to exists, and the package
    can be dispatched: after a successful call, [view_package] on the id
    it returned renders a package of status 'P', [dispatch_package] on
    that id succeeds, and [view_package] then renders it with status
    'D'. *)
Theorem created_package_can_be_viewed_and_dispatched (rq rq2 : request) (db : DB)
    (package_id : Z) :
  fst (create_package rq db) = RedirectViewPackage package_id ->
  (exists package,
     view_package package_id (snd (create_package rq db)) = Rendered package /\
     ReliefPkg.status_code package = "P"%string) /\
  fst (dispatch_package rq2 package_id (snd (create_package rq db)))
  = RedirectViewPackage package_id /\
  (exists package',
     view_package package_id
       (snd (dispatch_package rq2 package_id (snd (create_package rq db))))
     = Rendered package' /\
     ReliefPkg.status_code package' = "D"%string /\
     ReliefPkg.dispatch_dtime package' = Some (now rq2)).
Proof.
  intros H.
  destruct (create_package_success_adds_one_pending_package _ _ _ H)
    as (package & E & Hid & Hnext & Hst & _).
  assert (Hget : ReliefPkg_get (snd (create_package rq db)) package_id = Some package).
  { rewrite E. unfold ReliefPkg_get. simpl. apply find_appended.
    - rewrite Hnext. apply next_id_is_fresh.
    - rewrite Hid. apply Z.eqb_refl. }
  split.
  { exists package. unfold view_package. now rewrite Hget. }
  unfold dispatch_package. rewrite Hget, Hst. simpl.
  rewrite WorkflowFacts.guarded_flush_single. simpl. split; [reflexivity|].
  unfold entity_version. simpl.
  set (package' := dispatched package (current_user_email rq2) (now rq2)
                      (ReliefPkg.version_nbr package + 1)).
  exists package'. unfold view_package, ReliefPkg_get. simpl.
  unfold ReliefPkg_get in Hget.
  rewrite (WorkflowFacts.find_replaced _ package_id package package' Hget Hid). auto.
Qed.

(** X8. What [create_package] answers before it looks at the line items,
    for a POST whose request id reads as [rid]: an unknown request gives
    'Error creating package' (the 404 of [get_or_404] is caught by the
    [except] branch), a request of status other than 2 or 3 gives
    InvalidState whatever the rest of the form holds, and a warehouse
    without an active inventory gives NoActiveInventory; nothing is
    committed in any of these cases. *)
Theorem create_package_rejects_request_and_warehouse (rq : request) (db : DB)
    (id_str : string) (rid : Z) :
  is_post rq = true ->
  form_reliefrqst_id rq = Some id_str ->
  py_int id_str = Some rid ->
  (ReliefRqst_get db rid = None ->
   create_package rq db = (RedirectCreatePackage (ErrorCreating NotFound), db)) /\
  (forall r, ReliefRqst_get db rid = Some r -> packagable r = false ->
   create_package rq db = (RedirectCreatePackage InvalidState, db)) /\
  (forall r wh_str wid date_str d,
     ReliefRqst_get db rid = Some r -> packagable r = true ->
     form_warehouse_id rq = Some wh_str -> py_int wh_str = Some wid ->
     form_start_date rq = Some date_str -> strptime_date date_str = Some d ->
     active_inventory db wid = None ->
     create_package rq db = (RedirectCreatePackage NoActiveInventory, db)).
Proof.
  intros Hpost Hf Hi.
  unfold Workflow.create_package, Workflow.create_package_try,
    Workflow.create_package_prelude.
  rewrite Hpost, Hf. simpl. rewrite Hi. simpl.
  repeat split.
  - intros ->. reflexivity.
  - intros r -> Hp. unfold packagable in Hp. rewrite Hp. reflexivity.
  - intros r wh_str wid date_str d -> Hp Hw Hwi Hd Hdi Hinv.
    unfold packagable in Hp. rewrite Hp, Hw. simpl. rewrite Hwi, Hd. simpl.
    rewrite Hdi. simpl. rewrite Hinv. reflexivity.
Qed.

(** X9. A quantity that is not a finite number, on a line item the loop
    does not pass over and whose id reads as an integer: minus infinity is
    rejected as InvalidQuantity; plus infinity as QuantityExceedsRemaining
    when the item is in the request; for a NaN the comparison with the
    remainder raises, which the handler reports as 'Error creating
    package'. In each case the item not being in the request is reported
    first, except for minus infinity. *)
Theorem non_finite_quantity (rid wid : Z) (v : DB) (id_str qty_str : string)
    (item_id : Z) :
  py_int id_str = Some item_id ->
  (py_float qty_str = Some NegInf ->
   validate_line rid wid (mkSess v [] []) id_str qty_str = Return InvalidQuantity) /\
  (py_float qty_str = Some PosInf ->
   validate_line rid wid (mkSess v [] []) id_str qty_str
   = match rqst_item_of v rid item_id with
     | Some _ => Return QuantityExceedsRemaining
     | None => Return ItemNotInRequest
     end) /\
  (py_float qty_str = Some NaN ->
   validate_line rid wid (mkSess v [] []) id_str qty_str
   = match rqst_item_of v rid item_id with
     | Some _ => Raise InvalidOperation
     | None => Return ItemNotInRequest
     end).
Proof.
  intros Hi. unfold Workflow.validate_line. rewrite Hi. simpl.
  repeat split; intros ->; simpl; try reflexivity;
    rewrite WorkflowFacts.flush_clean; simpl;
    destruct (rqst_item_of v rid item_id); reflexivity.
Qed.

End Handlers.

Lemma create_package_success_adds_one_pending_package_witness :
  exists package,
    snd (Examples.create (Examples.package_form [""%string] ["5"%string])
           Examples.scenario_db)
    = set_reliefpkg Examples.scenario_db (reliefpkg Examples.scenario_db ++ [package]) /\
    ReliefPkg.reliefpkg_id package = 1.
Proof.
  destruct (create_package_success_adds_one_pending_package Examples.int_of_literal
              Examples.float_of_literal Examples.date_of_literal Examples.upper
              Examples.numeric_of_float
              (Examples.package_form [""%string] ["5"%string]) Examples.scenario_db 1
              eq_refl) as (package & H1 & H2 & _).
  exists package. auto.
Defined.

Lemma created_package_can_be_viewed_and_dispatched_witness :
  fst (dispatch_package (Examples.package_form [] []) 1
         (snd (Examples.create (Examples.package_form [""%string] ["5"%string])
                 Examples.scenario_db)))
  = RedirectViewPackage 1.
Proof.
  apply (created_package_can_be_viewed_and_dispatched Examples.int_of_literal
           Examples.float_of_literal Examples.date_of_literal Examples.upper
           Examples.numeric_of_float
           (Examples.package_form [""%string] ["5"%string])
           (Examples.package_form [] []) Examples.scenario_db 1 eq_refl).
Defined.

Lemma create_package_rejects_request_and_warehouse_witness :
  Examples.create (Examples.package_form [] [])
    (mkDB [ReliefRqst.mk 1 4] [] [] [] [])
  = (RedirectCreatePackage InvalidState, mkDB [ReliefRqst.mk 1 4] [] [] [] []).
Proof.
  apply (proj1 (proj2 (create_package_rejects_request_and_warehouse
                         Examples.int_of_literal Examples.float_of_literal
                         Examples.date_of_literal Examples.upper Examples.numeric_of_float
                         (Examples.package_form [] [])
                         (mkDB [ReliefRqst.mk 1 4] [] [] [] []) "1" 1
                         eq_refl eq_refl eq_refl)) (ReliefRqst.mk 1 4));
    reflexivity.
Defined.

Lemma non_finite_quantity_witness :
  validate_line Examples.int_of_literal (fun _ => Some NaN) Examples.numeric_of_float
    1 3 (mkSess Examples.scenario_db [] []) "7" "nan"
  = Raise InvalidOperation.
Proof.
  apply (proj2 (proj2 (non_finite_quantity Examples.int_of_literal (fun _ => Some NaN)
                         Examples.numeric_of_float 1 3 Examples.scenario_db "7" "nan" 7
                         eq_refl)) eq_refl).
Defined.

(** X10. [dispatch_package] on an id that is not in the table aborts with
    404 and changes nothing. On a pending package it advances the version
    by exactly one (the optimistic-locking hooks stamp the update), keeps
    the number of packages, and keeps the id, the request, the destination,
    the start date, the transport mode, the comments and the verification
    columns of the package. *)
Theorem dispatch_package_stamps_version (rq : request) (package_id : Z) (db : DB) :
  (ReliefPkg_get db package_id = None ->
   dispatch_package rq package_id db = (Abort404, db)) /\
  (forall package,
     ReliefPkg_get db package_id = Some package ->
     ReliefPkg.status_code package = "P"%string ->
     List.length (reliefpkg (snd (dispatch_package rq package_id db)))
     = List.length (reliefpkg db) /\
     exists package',
       ReliefPkg_get (snd (dispatch_package rq package_id db)) package_id = Some package' /\
       ReliefPkg.version_nbr package' = ReliefPkg.version_nbr package + 1 /\
       ReliefPkg.reliefpkg_id package' = ReliefPkg.reliefpkg_id package /\
       ReliefPkg.reliefrqst_id package' = ReliefPkg.reliefrqst_id package /\
       ReliefPkg.to_inventory_id package' = ReliefPkg.to_inventory_id package /\
       ReliefPkg.start_date package' = ReliefPkg.start_date package /\
       ReliefPkg.transport_mode package' = ReliefPkg.transport_mode package /\
       ReliefPkg.comments_text package' = ReliefPkg.comments_text package /\
       ReliefPkg.verify_by_id package' = ReliefPkg.verify_by_id package /\
       ReliefPkg.verify_dtime package' = ReliefPkg.verify_dtime package).
Proof.
  split.
  - intros H. unfold dispatch_package. now rewrite H.
  - intros package Hget Hst.
    assert (Hid : ReliefPkg.reliefpkg_id package = package_id).
    { unfold ReliefPkg_get in Hget. apply find_some in Hget.
      destruct Hget as [_ H]. now apply Z.eqb_eq in H. }
    unfold dispatch_package. rewrite Hget, Hst. simpl.
    rewrite WorkflowFacts.guarded_flush_single. simpl.
    unfold entity_version. simpl.
    split; [apply length_map|].
    set (package' := dispatched package (current_user_email rq) (now rq)
                        (ReliefPkg.version_nbr package + 1)).
    exists package'. unfold ReliefPkg_get in *. simpl.
    rewrite (WorkflowFacts.find_replaced _ package_id package package' Hget Hid).
    repeat split; reflexivity.
Qed.

(** X11. The form [create_package] renders on a GET offers exactly the
    requests of status 2 or 3, in descending order of id, and exactly the
    warehouses of status 'A'. It lists request items only for a selected
    request of status 2 or 3, and then only items of that request; and it
    selects nothing when the [request_id] argument is missing, is not an
    integer, or is 0. *)
Theorem create_form_offers_only_packagable (request_id : option Z) (date_today : Z)
    (db : DB) (warehouse : list Warehouse.t) :
  let ctx := create_package_get request_id date_today db warehouse in
  StronglySorted (desc ReliefRqst.reliefrqst_id) (approved_requests ctx) /\
  (forall r, In r (approved_requests ctx) <->
             In r (reliefrqst db) /\
             (ReliefRqst.status_code r = 2 \/ ReliefRqst.status_code r = 3)) /\
  (forall w, In w (warehouses ctx) <->
             In w warehouse /\ Warehouse.status_code w = "A"%string) /\
  (forall i, In i (request_items ctx) ->
     exists r,
       selected_request ctx = Some r /\
       request_id = Some (ReliefRqst.reliefrqst_id r) /\
       (ReliefRqst.status_code r = 2 \/ ReliefRqst.status_code r = 3) /\
       ReliefRqstItem.reliefrqst_id i = ReliefRqst.reliefrqst_id r /\
       In i (reliefrqst_item db)) /\
  (request_id = None \/ request_id = Some 0 ->
   selected_request ctx = None /\ request_items ctx = []).
Proof.
  assert (Hpk : forall r, packagable r = true <->
                          ReliefRqst.status_code r = 2 \/ ReliefRqst.status_code r = 3).
  { intros r. unfold packagable. rewrite orb_true_iff, !Z.eqb_eq. reflexivity. }
  simpl. split; [|split; [|split; [|split]]].
  - apply order_by_desc_sorted.
  - intros r. split.
    + intros H. apply (Permutation_in _ (Permutation_sym (order_by_desc_perm _ _))) in H.
      apply filter_In in H. destruct H as [H1 H2]. split; [exact H1|now apply Hpk].
    + intros [H1 H2]. apply (Permutation_in _ (order_by_desc_perm _ _)).
      apply filter_In. split; [exact H1|]. now apply Hpk.
  - intros w. rewrite filter_In, String.eqb_eq. reflexivity.
  - intros i Hi. destruct request_id as [rid|]; [|contradiction].
    destruct (rid =? 0) eqn:E0; [contradiction|].
    destruct (find _ (reliefrqst db)) as [r|] eqn:Hf; [|contradiction].
    destruct (packagable r) eqn:Hp; [|contradiction].
    apply filter_In in Hi. destruct Hi as [Hin Heq]. apply Z.eqb_eq in Heq.
    apply find_some in Hf. destruct Hf as [_ Hr]. apply Z.eqb_eq in Hr.
    exists r. split; [reflexivity|]. split; [congruence|].
    split; [now apply Hpk|]. split; assumption.
  - intros [->| ->]; split; reflexivity.
Qed.

End WorkflowExtras.

(** ** Facts about the user administration *)
Module UserAdminFacts.
Import Py UserAdmin.

Lemma user_by_email_none (db : DB) (e : string) :
  user_by_email db e = None -> ~ In e (map User.email (user db)).
Proof.
  unfold user_by_email. intros H Hin. apply in_map_iff in Hin.
  destruct Hin as (u & He & Hu).
  apply (find_none _ _ H) in Hu. rewrite He, String.eqb_refl in Hu. discriminate.
Qed.

Lemma with_is_active_email (b : bool) (uid : Z) (l : list User.t) :
  map User.email (map (with_is_active b uid) l) = map User.email l /\
  map User.id (map (with_is_active b uid) l) = map User.id l.
Proof.
  induction l as [|u l [IH1 IH2]]; [auto|]. simpl. rewrite IH1, IH2.
  unfold with_is_active. destruct (User.id u =? uid); auto.
Qed.

Lemma user_id_below_max (l : list User.t) (u : User.t) :
  In u l -> User.id u <= fold_right Z.max 0 (map User.id l).
Proof.
  induction l as [|a l IH]; simpl; [contradiction|].
  intros [->|H]; [lia|]. specialize (IH H). lia.
Qed.

Section Handlers.
Variable py_int : string -> option Z.
Variable str_strip : string -> string.
Variable str_lower : string -> string.
Variable generate_password_hash : string -> string.

Local Abbreviation ints := (ints py_int).
Local Abbreviation add_links := (add_links py_int).
Local Abbreviation create := (create py_int str_strip str_lower generate_password_hash).
Local Abbreviation edit := (edit py_int str_strip generate_password_hash).
Local Abbreviation edited := (edited str_strip generate_password_hash).
Local Abbreviation submitted_email := (submitted_email str_strip str_lower).

Lemma insert_user_roles_spec (db : DB) (now uid : Z) (ids : list Z) :
  forall table table',
    insert_user_roles db now uid ids table = inr table' ->
    table' = table ++ map (fun r => UserRole.mk uid r (Some now)) ids /\
    Forall (fun r => exists x, In x (role db) /\ Role.id x = r) ids /\
    NoDup ids /\
    Forall (fun r => existsb (fun x => (UserRole.user_id x =? uid)
                                       && (UserRole.role_id x =? r)) table = false) ids.
Proof.
  induction ids as [|r ids IH]; simpl; intros table table' H.
  - injection H as <-. rewrite app_nil_r. repeat split; constructor.
  - destruct (existsb (fun x => Role.id x =? r) (role db)) eqn:Hex; simpl in H;
      [|discriminate].
    destruct (existsb _ table) eqn:Hdup; [discriminate|].
    destruct (IH _ _ H) as (-> & Hall & Hnd & Hnew).
    rewrite <- app_assoc. simpl. split; [reflexivity|]. split.
    { constructor; [|exact Hall].
      apply existsb_exists in Hex. destruct Hex as (x & Hx & He).
      apply Z.eqb_eq in He. eauto. }
    rewrite Forall_forall in Hnew.
    assert (Hr : ~ In r ids).
    { intros Hin. specialize (Hnew _ Hin). rewrite existsb_app in Hnew. simpl in Hnew.
      rewrite !Z.eqb_refl in Hnew. simpl in Hnew. rewrite orb_true_r in Hnew.
      discriminate. }
    split; [constructor; assumption|].
    constructor; [exact Hdup|]. rewrite Forall_forall. intros q Hq.
    specialize (Hnew _ Hq). rewrite existsb_app in Hnew.
    now apply orb_false_iff in Hnew.
Qed.

Lemma insert_user_warehouses_spec (db : DB) (now uid : Z) (ids : list Z) :
  forall table table',
    insert_user_warehouses db now uid ids table = inr table' ->
    table' = table ++ map (fun w => UserWarehouse.mk uid w (Some now)) ids /\
    Forall (fun w => exists x, In x (warehouse db) /\ Listing.Warehouse.warehouse_id x = w)
           ids /\
    NoDup ids /\
    Forall (fun w => existsb (fun x => (UserWarehouse.user_id x =? uid)
                                       && (UserWarehouse.warehouse_id x =? w)) table
                     = false) ids.
Proof.
  induction ids as [|r ids IH]; simpl; intros table table' H.
  - injection H as <-. rewrite app_nil_r. repeat split; constructor.
  - destruct (existsb (fun x => Listing.Warehouse.warehouse_id x =? r) (warehouse db))
      eqn:Hex; simpl in H; [|discriminate].
    destruct (existsb _ table) eqn:Hdup; [discriminate|].
    destruct (IH _ _ H) as (-> & Hall & Hnd & Hnew).
    rewrite <- app_assoc. simpl. split; [reflexivity|]. split.
    { constructor; [|exact Hall].
      apply existsb_exists in Hex. destruct Hex as (x & Hx & He).
      apply Z.eqb_eq in He. eauto. }
    rewrite Forall_forall in Hnew.
    assert (Hr : ~ In r ids).
    { intros Hin. specialize (Hnew _ Hin). rewrite existsb_app in Hnew. simpl in Hnew.
      rewrite !Z.eqb_refl in Hnew. simpl in Hnew. rewrite orb_true_r in Hnew.
      discriminate. }
    split; [constructor; assumption|].
    constructor; [exact Hdup|]. rewrite Forall_forall. intros q Hq.
    specialize (Hnew _ Hq). rewrite existsb_app in Hnew.
    now apply orb_false_iff in Hnew.
Qed.

Lemma ints_unreadable (l : list string) :
  (exists x, In x l /\ py_int x = None) -> ints l = inl ValueError.
Proof.
  induction l as [|a l IH]; intros (x & Hin & Hx); [contradiction|]. simpl.
  destruct (py_int a) eqn:Ha.
  - destruct Hin as [->|Hin]; [congruence|]. rewrite IH; eauto.
  - reflexivity.
Qed.

Lemma add_links_spec (rq : request) (uid : Z) (db db' : DB) :
  add_links rq uid db = inr db' ->
  exists role_ids warehouse_ids,
    ints (form_roles rq) = inr role_ids /\
    ints (form_warehouses rq) = inr warehouse_ids /\
    db' = set_links db
            (user_role db ++ map (fun r => UserRole.mk uid r (Some (utcnow rq))) role_ids)
            (user_warehouse db
             ++ map (fun w => UserWarehouse.mk uid w (Some (utcnow rq))) warehouse_ids) /\
    NoDup role_ids /\ NoDup warehouse_ids /\
    Forall (fun r => exists x, In x (role db) /\ Role.id x = r) role_ids /\
    Forall (fun w => exists x, In x (warehouse db)
                               /\ Listing.Warehouse.warehouse_id x = w) warehouse_ids.
Proof.
  unfold UserAdmin.add_links.
  destruct (ints (form_roles rq)) as [e|rs]; [discriminate|].
  destruct (ints (form_warehouses rq)) as [e|ws]; [discriminate|].
  destruct (insert_user_roles db (utcnow rq) uid rs (user_role db)) as [e|ur] eqn:Hr;
    [discriminate|].
  destruct (insert_user_warehouses db (utcnow rq) uid ws (user_warehouse db))
    as [e|uw] eqn:Hw; [discriminate|].
  intros H. injection H as <-.
  destruct (insert_user_roles_spec _ _ _ _ _ _ Hr) as (-> & H1 & H2 & _).
  destruct (insert_user_warehouses_spec _ _ _ _ _ _ Hw) as (-> & H3 & H4 & _).
  exists rs, ws. repeat split; auto.
Qed.

Lemma add_links_keeps_users (rq : request) (uid : Z) (db db' : DB) :
  add_links rq uid db = inr db' ->
  user db' = user db /\ role db' = role db /\ warehouse db' = warehouse db.
Proof.
  intros H. destruct (add_links_spec _ _ _ _ H) as (rs & ws & _ & _ & -> & _).
  simpl. auto.
Qed.

Lemma create_success (rq : request) (db : DB) :
  fst (create rq db) = RedirectIndex ->
  exists new_user db',
    truthy (submitted_email rq) = true /\
    truthy (get_or_empty (form_password rq)) = true /\
    user_by_email db (submitted_email rq) = None /\
    User.id new_user = next_user_id db /\
    User.email new_user = submitted_email rq /\
    User.is_active new_user = checkbox (form_is_active rq) /\
    User.password_hash new_user = generate_password_hash (get_or_empty (form_password rq)) /\
    add_links rq (next_user_id db) (set_user db (user db ++ [new_user])) = inr db' /\
    create rq db = (RedirectIndex, db').
Proof.
  unfold UserAdmin.create, UserAdmin.submitted_email.
  destruct (is_post rq); [|discriminate].
  destruct (truthy (str_lower (str_strip (get_or_empty (form_email rq))))) eqn:He;
    [|discriminate].
  destruct (truthy (get_or_empty (form_password rq))) eqn:Hp; [|discriminate].
  simpl.
  destruct (user_by_email db _) eqn:Hu; [discriminate|].
  match goal with
  | |- context [UserAdmin.add_links _ _ _ (set_user db (user db ++ [?u]))] =>
    set (new_user := u)
  end.
  destruct (UserAdmin.add_links py_int rq (next_user_id db)
              (set_user db (user db ++ [new_user]))) as [e|db'] eqn:Hl;
    [discriminate|].
  intros _. exists new_user, db'. repeat split; auto.
Qed.

Lemma NoDup_snoc {A : Type} (l : list A) (x : A) :
  NoDup l -> ~ In x l -> NoDup (l ++ [x]).
Proof.
  intros Hl Hx. induction Hl as [|a l Ha Hl IH]; simpl.
  - constructor; [intros []|constructor].
  - constructor.
    + intros Hin. apply in_app_or in Hin. destruct Hin as [Hin|[->|[]]].
      * now apply Ha.
      * apply Hx. now left.
    + apply IH. intros Hin. apply Hx. now right.
Qed.

Lemma same_key_same_row {A : Type} (key : A -> Z) (l : list A) (x y : A) :
  NoDup (map key l) -> In x l -> In y l -> key x = key y -> x = y.
Proof.
  induction l as [|a l IH]; simpl; intros Hnd Hx Hy Hk; [contradiction|].
  inversion Hnd as [|? ? Ha Hl]; subst.
  destruct Hx as [->|Hx], Hy as [->|Hy]; auto.
  - exfalso. apply Ha. rewrite Hk. now apply in_map.
  - exfalso. apply Ha. rewrite <- Hk. now apply in_map.
Qed.

Lemma next_user_id_is_fresh (db : DB) : ~ In (next_user_id db) (map User.id (user db)).
Proof.
  intros H. apply in_map_iff in H. destruct H as (u & Hu & Hin).
  pose proof (user_id_below_max _ _ Hin). unfold next_user_id in Hu. lia.
Qed.

Lemma edit_keeps_ids_and_emails (rq : request) (uid : Z) (db : DB) :
  NoDup (map User.id (user db)) ->
  map User.id (user (snd (edit rq uid db))) = map User.id (user db) /\
  map User.email (user (snd (edit rq uid db))) = map User.email (user db).
Proof.
  intros Hids. unfold UserAdmin.edit.
  destruct (User_get db uid) as [u|] eqn:Hu; [|auto].
  destruct (is_post rq); [|auto].
  destruct (ints (form_roles rq)) as [e|rs]; [auto|].
  destruct (insert_user_roles _ _ _ _ _) as [e|ur]; [auto|].
  destruct (ints (form_warehouses rq)) as [e|ws]; [auto|].
  destruct (insert_user_warehouses _ _ _ _ _) as [e|uw]; [auto|].
  simpl. unfold User_get in Hu. apply find_some in Hu. destruct Hu as [Hin Hid].
  apply Z.eqb_eq in Hid.
  assert (H : forall x, In x (user db) ->
                        (if User.id x =? uid then edited rq u else x) = x \/
                        (x = u)).
  { intros x Hx. destruct (User.id x =? uid) eqn:E; [right|left; reflexivity].
    apply Z.eqb_eq in E. apply (same_key_same_row User.id (user db)); auto. congruence. }
  clear Hids. split.
  - rewrite map_map. apply map_ext_in. intros x Hx.
    destruct (User.id x =? uid) eqn:E; [|reflexivity]. apply Z.eqb_eq in E. simpl. congruence.
  - rewrite map_map. apply map_ext_in. intros x Hx.
    destruct (H x Hx) as [Hs| ->].
    + now rewrite Hs.
    + destruct (User.id u =? uid); reflexivity.
Qed.

(** X12. [create] refuses a form whose email is empty once stripped and
    lowered, or whose password is empty: it renders the form again with
    'Email and password are required.' and stores nothing. *)
Theorem create_requires_email_and_password (rq : request) (db : DB) :
  is_post rq = true ->
  submitted_email rq = EmptyString \/ get_or_empty (form_password rq) = EmptyString ->
  create rq db = (RenderCreate (Some Required) (role db) (active_warehouses db), db).
Proof.
  intros Hpost H. unfold UserAdmin.create. unfold UserAdmin.submitted_email in H.
  rewrite Hpost.
  destruct H as [-> | ->]; simpl; [reflexivity|].
  now rewrite orb_true_r.
Qed.

(** X13. No handler of the user administration breaks the uniqueness of
    ids and of emails: if the users have pairwise different ids and
    pairwise different emails before a call of [create], [edit],
    [deactivate] or [activate], they have after it. *)
Theorem ids_and_emails_stay_unique (rq : request) (uid : Z) (db : DB) :
  NoDup (map User.id (user db)) ->
  NoDup (map User.email (user db)) ->
  (NoDup (map User.id (user (snd (create rq db)))) /\
   NoDup (map User.email (user (snd (create rq db))))) /\
  (NoDup (map User.id (user (snd (edit rq uid db)))) /\
   NoDup (map User.email (user (snd (edit rq uid db))))) /\
  (NoDup (map User.id (user (snd (deactivate rq uid db)))) /\
   NoDup (map User.email (user (snd (deactivate rq uid db))))) /\
  (NoDup (map User.id (user (snd (activate uid db)))) /\
   NoDup (map User.email (user (snd (activate uid db))))).
Proof.
  intros Hids Hemails. split; [|split; [|split]].
  - destruct (fst (create rq db)) eqn:Hr;
      try (assert (E : snd (create rq db) = db);
           [ revert Hr; unfold UserAdmin.create;
             destruct (is_post rq); simpl; [|reflexivity];
             destruct (_ || _); simpl; [reflexivity|];
             destruct (user_by_email db _); simpl; [reflexivity|];
             destruct (UserAdmin.add_links _ _ _ _); simpl; [reflexivity|discriminate]
           | rewrite E; auto ]).
    destruct (create_success _ _ Hr)
      as (nu & db' & _ & _ & Hnone & Hid & Hem & _ & _ & Hl & E).
    rewrite E. simpl. destruct (add_links_keeps_users _ _ _ _ Hl) as (-> & _ & _).
    simpl. rewrite !map_app. simpl. split; apply NoDup_snoc; auto.
    + rewrite Hid. apply next_user_id_is_fresh.
    + rewrite Hem. now apply user_by_email_none.
  - destruct (edit_keeps_ids_and_emails rq uid db Hids) as [-> ->]. auto.
  - unfold deactivate. destruct (uid =? current_user_id rq); [auto|].
    destruct (User_get db uid); [|auto]. simpl.
    destruct (with_is_active_email false uid (user db)) as [-> ->]. auto.
  - unfold activate. destruct (User_get db uid); [|auto]. simpl.
    destruct (with_is_active_email true uid (user db)) as [-> ->]. auto.
Qed.


(** X15. After a successful [create] the links of the new user are the
    submitted role ids and warehouse ids, in the order of the form, added
    after the links that were there; the ids of each list are pairwise
    different. *)
Theorem created_user_gets_submitted_links (rq : request) (db : DB) :
  fst (create rq db) = RedirectIndex ->
  exists role_ids warehouse_ids,
    ints (form_roles rq) = inr role_ids /\
    ints (form_warehouses rq) = inr warehouse_ids /\
    user_role (snd (create rq db))
    = user_role db
      ++ map (fun r => UserRole.mk (next_user_id db) r (Some (utcnow rq))) role_ids /\
    user_warehouse (snd (create rq db))
    = user_warehouse db
      ++ map (fun w => UserWarehouse.mk (next_user_id db) w (Some (utcnow rq)))
             warehouse_ids /\
    NoDup role_ids /\ NoDup warehouse_ids.
Proof.
  intros Hr.
  destruct (create_success _ _ Hr) as (nu & db' & _ & _ & _ & _ & _ & _ & _ & Hl & E).
  destruct (add_links_spec _ _ _ _ Hl) as (rs & ws & H1 & H2 & -> & H3 & H4 & H5 & H6).
  exists rs, ws. rewrite E. simpl. repeat split; auto.
Qed.

Lemma find_map_by_id (f : User.t -> User.t) (k : Z) (l : list User.t) :
  (forall x, User.id (f x) = User.id x) ->
  find (fun u => User.id u =? k) (map f l)
  = option_map f (find (fun u => User.id u =? k) l).
Proof.
  intros Hf. induction l as [|a l IH]; simpl; [reflexivity|].
  rewrite Hf. destruct (User.id a =? k); [reflexivity|exact IH].
Qed.

Lemma with_is_active_id (b : bool) (uid : Z) (x : User.t) :
  User.id (with_is_active b uid x) = User.id x.
Proof. unfold with_is_active. destruct (User.id x =? uid); reflexivity. Qed.

(** X16. [deactivate] refuses the id of the logged-in user, before any
    lookup, and changes nothing; on another id that is not in the table it
    aborts with 404 and changes nothing; otherwise the user of that id is
    inactive afterwards, with the same id and email, every user of another
    id (the logged-in one among them) is found as before, and the links
    are untouched. *)
Theorem deactivate_spares_own_account (rq : request) (uid : Z) (db : DB) :
  (uid = current_user_id rq ->
   deactivate rq uid db = (RedirectView uid (Some OwnAccount), db)) /\
  (uid <> current_user_id rq -> User_get db uid = None ->
   deactivate rq uid db = (Abort404, db)) /\
  (forall u,
     uid <> current_user_id rq -> User_get db uid = Some u ->
     fst (deactivate rq uid db) = RedirectIndex /\
     (exists u',
        User_get (snd (deactivate rq uid db)) uid = Some u' /\
        User.is_active u' = false /\
        User.id u' = User.id u /\ User.email u' = User.email u) /\
     (forall other, other <> uid ->
        User_get (snd (deactivate rq uid db)) other = User_get db other) /\
     user_role (snd (deactivate rq uid db)) = user_role db /\
     user_warehouse (snd (deactivate rq uid db)) = user_warehouse db).
Proof.
  split; [|split].
  - intros ->. unfold deactivate. now rewrite Z.eqb_refl.
  - intros Hne Hu. unfold deactivate.
    destruct (Z.eqb_spec uid (current_user_id rq)); [contradiction|]. now rewrite Hu.
  - intros u Hne Hu. unfold deactivate.
    destruct (Z.eqb_spec uid (current_user_id rq)); [contradiction|]. rewrite Hu. simpl.
    split; [reflexivity|].
    assert (Hid : User.id u = uid).
    { unfold User_get in Hu. apply find_some in Hu. destruct Hu as [_ H].
      now apply Z.eqb_eq in H. }
    split; [|split; [|split; reflexivity]].
    + exists (with_is_active false uid u). unfold User_get in *. simpl.
      rewrite (find_map_by_id _ _ _ (with_is_active_id false uid)), Hu. simpl.
      split; [reflexivity|]. unfold with_is_active. rewrite Hid, Z.eqb_refl. simpl. auto.
    + intros other Ho. unfold User_get. simpl.
      rewrite (find_map_by_id _ _ _ (with_is_active_id false uid)).
      destruct (find (fun x => User.id x =? other) (user db)) as [x|] eqn:Hx;
        [|reflexivity].
      simpl. apply find_some in Hx. destruct Hx as [_ Hx]. apply Z.eqb_eq in Hx.
      unfold with_is_active. destruct (Z.eqb_spec (User.id x) uid); [congruence|reflexivity].
Qed.

(** X17. [activate] undoes [deactivate]: where ids are unique, deactivating
    another user who was active and then activating that user gives back
    the database as it was. *)
Theorem activate_undoes_deactivate (rq : request) (uid : Z) (db : DB) (u : User.t) :
  NoDup (map User.id (user db)) ->
  uid <> current_user_id rq ->
  User_get db uid = Some u ->
  User.is_active u = true ->
  activate uid (snd (deactivate rq uid db)) = (RedirectIndex, db).
Proof.
  intros Hids Hne Hu Hact. unfold deactivate.
  destruct (Z.eqb_spec uid (current_user_id rq)); [contradiction|]. rewrite Hu. simpl.
  unfold activate, User_get in *. simpl.
  rewrite (find_map_by_id _ _ _ (with_is_active_id false uid)), Hu. simpl.
  apply find_some in Hu. destruct Hu as [Hin Hid]. apply Z.eqb_eq in Hid.
  assert (E : map (with_is_active true uid) (map (with_is_active false uid) (user db))
              = user db).
  { rewrite map_map. rewrite <- (map_id (user db)) at 2. apply map_ext_in.
    intros x Hx. unfold with_is_active.
    destruct (User.id x =? uid) eqn:Ex; simpl; rewrite Ex; [|reflexivity].
    apply Z.eqb_eq in Ex.
    assert (x = u) by (apply (same_key_same_row User.id (user db)); auto; congruence).
    subst x. destruct u. simpl in *. now rewrite Hact. }
  unfold set_user. simpl. rewrite E. destruct db. reflexivity.
Qed.

Lemma filter_none {A : Type} (p : A -> bool) (l : list A) :
  (forall x, In x l -> p x = false) -> filter p l = [].
Proof.
  induction l as [|a l IH]; simpl; intros H; [reflexivity|].
  rewrite (H a (or_introl eq_refl)). apply IH. intros x Hx. apply H. now right.
Qed.

Lemma filter_all {A : Type} (p : A -> bool) (l : list A) :
  (forall x, In x l -> p x = true) -> filter p l = l.
Proof.
  induction l as [|a l IH]; simpl; intros H; [reflexivity|].
  rewrite (H a (or_introl eq_refl)). f_equal. apply IH. intros x Hx. apply H. now right.
Qed.

(** X18. When [edit] answers with the success redirect, the role links of
    the user are exactly the submitted role ids, in the order of the form,
    and the warehouse links exactly the submitted warehouse ids, whatever
    links the user had; the ids are pairwise different; the links of every
    other user are as before; and no user's id has changed. *)
Theorem edit_replaces_links (rq : request) (uid uid' : Z) (db : DB) :
  fst (edit rq uid db) = RedirectView uid' None ->
  uid' = uid /\
  exists role_ids warehouse_ids,
    ints (form_roles rq) = inr role_ids /\
    ints (form_warehouses rq) = inr warehouse_ids /\
    NoDup role_ids /\ NoDup warehouse_ids /\
    map UserRole.role_id
      (filter (fun x => UserRole.user_id x =? uid) (user_role (snd (edit rq uid db))))
    = role_ids /\
    map UserWarehouse.warehouse_id
      (filter (fun x => UserWarehouse.user_id x =? uid)
              (user_warehouse (snd (edit rq uid db))))
    = warehouse_ids /\
    filter (fun x => negb (UserRole.user_id x =? uid)) (user_role (snd (edit rq uid db)))
    = filter (fun x => negb (UserRole.user_id x =? uid)) (user_role db) /\
    filter (fun x => negb (UserWarehouse.user_id x =? uid))
           (user_warehouse (snd (edit rq uid db)))
    = filter (fun x => negb (UserWarehouse.user_id x =? uid)) (user_warehouse db) /\
    map User.id (user (snd (edit rq uid db))) = map User.id (user db).
Proof.
  unfold UserAdmin.edit.
  destruct (User_get db uid) as [u|] eqn:Hu; [|discriminate].
  assert (Hid : User.id u = uid).
  { unfold User_get in Hu. apply find_some in Hu. destruct Hu as [_ H].
    now apply Z.eqb_eq in H. }
  destruct (is_post rq); [|discriminate].
  destruct (ints (form_roles rq)) as [e|rs]; [discriminate|].
  destruct (insert_user_roles _ _ _ _ _) as [e|ur] eqn:Hr; [discriminate|].
  destruct (ints (form_warehouses rq)) as [e|ws]; [discriminate|].
  destruct (insert_user_warehouses _ _ _ _ _) as [e|uw] eqn:Hw; [discriminate|].
  simpl. intros H. injection H as <-. split; [exact Hid|].
  destruct (insert_user_roles_spec _ _ _ _ _ _ Hr) as (-> & _ & H2 & _).
  destruct (insert_user_warehouses_spec _ _ _ _ _ _ Hw) as (-> & _ & H4 & _).
  simpl. rewrite Hid.
  exists rs, ws. split; [reflexivity|]. split; [reflexivity|].
  split; [exact H2|]. split; [exact H4|].
  rewrite !filter_app.
  split; [|split; [|split; [|split]]].
  - rewrite filter_none.
    + simpl. rewrite filter_all.
      * rewrite map_map. simpl. apply map_id.
      * intros x Hx. apply in_map_iff in Hx. destruct Hx as (r & <- & _).
        simpl. apply Z.eqb_refl.
    + intros x Hx. apply filter_In in Hx. destruct Hx as [_ Hx].
      now apply negb_true_iff in Hx.
  - rewrite filter_none.
    + simpl. rewrite filter_all.
      * rewrite map_map. simpl. apply map_id.
      * intros x Hx. apply in_map_iff in Hx. destruct Hx as (r & <- & _).
        simpl. apply Z.eqb_refl.
    + intros x Hx. apply filter_In in Hx. destruct Hx as [_ Hx].
      now apply negb_true_iff in Hx.
  - rewrite (filter_none _ (map _ rs)).
    + rewrite app_nil_r. apply filter_all. intros x Hx. apply filter_In in Hx. tauto.
    + intros x Hx. apply in_map_iff in Hx. destruct Hx as (r & <- & _).
      simpl. now rewrite Z.eqb_refl.
  - rewrite (filter_none _ (map _ ws)).
    + rewrite app_nil_r. apply filter_all. intros x Hx. apply filter_In in Hx. tauto.
    + intros x Hx. apply in_map_iff in Hx. destruct Hx as (r & <- & _).
      simpl. now rewrite Z.eqb_refl.
  - rewrite map_map. apply map_ext_in. intros x Hx.
    destruct (Z.eqb_spec (User.id x) uid) as [E|E]; [|reflexivity]. simpl. congruence.
Qed.

(** X19. A role id in the form that does not read as an integer makes
    [create] and [edit] raise [ValueError], and nothing is committed: the
    user [create] had already flushed is not stored, and none of the
    changes of [edit] is. *)
Theorem unreadable_role_id_commits_nothing (rq : request) (uid : Z) (db : DB) :
  is_post rq = true ->
  (exists x, In x (form_roles rq) /\ py_int x = None) ->
  (truthy (submitted_email rq) = true ->
   truthy (get_or_empty (form_password rq)) = true ->
   user_by_email db (submitted_email rq) = None ->
   create rq db = (Unhandled ValueError, db)) /\
  (forall u, User_get db uid = Some u -> edit rq uid db = (Unhandled ValueError, db)).
Proof.
  intros Hpost Hbad. pose proof (ints_unreadable _ Hbad) as Hi. split.
  - intros He Hp Hu. unfold UserAdmin.create, UserAdmin.submitted_email in *.
    rewrite Hpost, He, Hp, Hu. simpl. unfold UserAdmin.add_links. now rewrite Hi.
  - intros u Hu. unfold UserAdmin.edit. now rewrite Hu, Hpost, Hi.
Qed.

End Handlers.

Lemma admin_db_ids_unique : NoDup (map User.id (user UserExamples.admin_db)).
Proof.
  simpl. constructor; [intros [H|[]]; discriminate|].
  constructor; [intros []|constructor].
Qed.

Lemma admin_db_emails_unique : NoDup (map User.email (user UserExamples.admin_db)).
Proof.
  simpl. constructor; [intros [H|[]]; discriminate|].
  constructor; [intros []|constructor].
Qed.

Lemma create_requires_email_and_password_witness :
  create Examples.int_of_literal UserExamples.strip UserExamples.lower UserExamples.hash_of
    (mkRequest true (Some "   "%string) (Some "s3cret"%string) None None None None None
       None [] [] 1 300)
    UserExamples.admin_db
  = (RenderCreate (Some Required) (role UserExamples.admin_db)
       (active_warehouses UserExamples.admin_db),
     UserExamples.admin_db).
Proof.
  apply (create_requires_email_and_password Examples.int_of_literal UserExamples.strip
           UserExamples.lower UserExamples.hash_of).
  - reflexivity.
  - left. reflexivity.
Defined.

Lemma ids_and_emails_stay_unique_witness :
  NoDup (map User.email
           (user (snd (create Examples.int_of_literal UserExamples.strip UserExamples.lower
                         UserExamples.hash_of UserExamples.new_user_form
                         UserExamples.admin_db)))).
Proof.
  apply (proj2 (proj1 (ids_and_emails_stay_unique Examples.int_of_literal UserExamples.strip
                         UserExamples.lower UserExamples.hash_of UserExamples.new_user_form 2
                         UserExamples.admin_db admin_db_ids_unique admin_db_emails_unique))).
Defined.


Lemma created_user_gets_submitted_links_witness :
  exists role_ids warehouse_ids,
    ints Examples.int_of_literal (form_roles UserExamples.new_user_form) = inr role_ids /\
    ints Examples.int_of_literal (form_warehouses UserExamples.new_user_form)
    = inr warehouse_ids /\
    NoDup role_ids /\ NoDup warehouse_ids.
Proof.
  destruct (created_user_gets_submitted_links Examples.int_of_literal UserExamples.strip
              UserExamples.lower UserExamples.hash_of UserExamples.new_user_form
              UserExamples.admin_db eq_refl)
    as (rs & ws & H1 & H2 & _ & _ & H3 & H4).
  exists rs, ws. auto.
Defined.

Lemma activate_undoes_deactivate_witness :
  activate 2 (snd (deactivate (UserExamples.post_by 1) 2 UserExamples.admin_db))
  = (RedirectIndex, UserExamples.admin_db).
Proof.
  apply (activate_undoes_deactivate (UserExamples.post_by 1) 2 UserExamples.admin_db
           (User.mk 2 "clerk@odpem.gov.jm" "pbkdf2:pw" (Some "Cy"%string)
              (Some "Clerk"%string) (Some "Cy Clerk"%string) None true None None None
              (Some 200))).
  - exact admin_db_ids_unique.
  - discriminate.
  - reflexivity.
  - reflexivity.
Defined.

Lemma edit_replaces_links_witness :
  exists role_ids warehouse_ids,
    map UserRole.role_id
      (filter (fun x => UserRole.user_id x =? 2)
         (user_role
            (snd (edit Examples.int_of_literal UserExamples.strip UserExamples.hash_of
                    (mkRequest true None None (Some "Cy"%string) (Some "Clerk"%string)
                       None None None (Some "on"%string)
                       ["1"%string; "2"%string] [] 1 400)
                    2 UserExamples.admin_db))))
    = role_ids /\
    ints Examples.int_of_literal ["1"%string; "2"%string] = inr role_ids /\
    ints Examples.int_of_literal [] = inr warehouse_ids.
Proof.
  destruct (edit_replaces_links Examples.int_of_literal UserExamples.strip
              UserExamples.hash_of
              (mkRequest true None None (Some "Cy"%string) (Some "Clerk"%string)
                 None None None (Some "on"%string) ["1"%string; "2"%string] [] 1 400)
              2 2 UserExamples.admin_db eq_refl)
    as (_ & rs & ws & H1 & H2 & _ & _ & H3 & _).
  exists rs, ws. auto.
Defined.

Lemma unreadable_role_id_commits_nothing_witness :
  edit Examples.int_of_literal UserExamples.strip UserExamples.hash_of
    (mkRequest true None None (Some "Cy"%string) (Some "Clerk"%string)
       None None None (Some "on"%string) ["one"%string] [] 1 400)
    2 UserExamples.admin_db
  = (Unhandled ValueError, UserExamples.admin_db).
Proof.
  apply (proj2 (unreadable_role_id_commits_nothing Examples.int_of_literal
                  UserExamples.strip UserExamples.lower UserExamples.hash_of
                  (mkRequest true None None (Some "Cy"%string) (Some "Clerk"%string)
                     None None None (Some "on"%string) ["one"%string] [] 1 400)
                  2 UserExamples.admin_db eq_refl
                  (ex_intro _ "one"%string (conj (or_introl eq_refl) eq_refl)))
           (User.mk 2 "clerk@odpem.gov.jm" "pbkdf2:pw" (Some "Cy"%string)
              (Some "Clerk"%string) (Some "Cy Clerk"%string) None true None None None
              (Some 200))).
  reflexivity.
Defined.

End UserAdminFacts.
